(** * Calendar extension: sync, credential refresh, event cache and reminders

    A shallow embedding of the TypeScript sources of the calendar extension
    (events repository, accounts repository, credential refresher, Google
    provider, iCal parser, sync orchestrator and background worker), and the
    properties of it that the specification states.

    Conventions.
    - Instants are [Z] milliseconds since the epoch, as [Date.getTime()] has
      them; an invalid date ([NaN]) is [None].
    - Strings are [string]; JavaScript compares them by code unit, which on
      the ASCII strings used here is [String.compare].
    - Asynchronous code is sequential here: every [await] is a bind of the
      monad [M], whose state [World] holds the storage collections, the
      secrets, the clock and the trace of calls to external collaborators.
    - A thrown [Error] is [Throw msg], [msg] being its [message]. *)

From Stdlib Require Import ZArith String Ascii List Bool Lia Sorted.
From stdpp Require Import base gmap strings list.

Open Scope string_scope.
Open Scope Z_scope.

(** ** JavaScript helpers *)

Module JS.

(** Truthiness of a [string | undefined] value: [undefined] and the empty
    string are falsy. *)
Definition truthy (o : option string) : bool :=
  match o with
  | Some s => negb (String.eqb s "")
  | None => false
  end.

(** [a || b] on [string | undefined] operands. *)
Definition or_else (a b : option string) : option string :=
  if truthy a then a else b.

(** [a || d] where [d] is a string literal. *)
Definition or_default (a : option string) (d : string) : string :=
  match a with
  | Some s => if String.eqb s "" then d else s
  | None => d
  end.

(** [a || null]. *)
Definition or_null (a : option string) : option string :=
  if truthy a then a else None.

(** [s.replace(pat, rep)] with a string pattern: the first occurrence. *)
Fixpoint replace_first (pat rep s : string) : string :=
  if String.prefix pat s
  then rep ++ String.substring (String.length pat)
                (String.length s - String.length pat) s
  else
    match s with
    | EmptyString => EmptyString
    | String c s' => String c (replace_first pat rep s')
    end.

(** [s.toLowerCase()] on ASCII. *)
Definition lower (c : ascii) : ascii :=
  let n := nat_of_ascii c in
  if (Nat.leb 65 n && Nat.leb n 90)%bool then ascii_of_nat (n + 32) else c.

Fixpoint toLowerCase (s : string) : string :=
  match s with
  | EmptyString => EmptyString
  | String c s' => String (lower c) (toLowerCase s')
  end.

(** [a >= b] and [a <= b] on strings. *)
Definition str_ge (a b : string) : bool := String.leb b a.
Definition str_le (a b : string) : bool := String.leb a b.

(** [xs.slice(start, end)] for [0 <= start]. *)
Definition slice {A} (xs : list A) (start stop : nat) : list A :=
  take (stop - start)%nat (drop start xs).

End JS.

(** ** ISO 8601 instants

    A concrete [Date]: [toISOString] and the parsing of the strings it
    writes ([YYYY-MM-DDTHH:mm:ss.sssZ], years 0000 to 9999).  The program
    is stated over an abstract host (class [Host] below); these functions
    instantiate it for the worked examples. *)

Module IsoDate.

Definition days_from_civil (y m d : Z) : Z :=
  let y' := if m <=? 2 then y - 1 else y in
  let era := y' / 400 in
  let yoe := y' - era * 400 in
  let mp := if m >? 2 then m - 3 else m + 9 in
  let doy := (153 * mp + 2) / 5 + d - 1 in
  let doe := yoe * 365 + yoe / 4 - yoe / 100 + doy in
  era * 146097 + doe - 719468.

Definition civil_from_days (z0 : Z) : Z * Z * Z :=
  let z := z0 + 719468 in
  let era := z / 146097 in
  let doe := z - era * 146097 in
  let yoe := (doe - doe / 1460 + doe / 36524 - doe / 146096) / 365 in
  let y := yoe + era * 400 in
  let doy := doe - (365 * yoe + yoe / 4 - yoe / 100) in
  let mp := (5 * doy + 2) / 153 in
  let d := doy - (153 * mp + 2) / 5 + 1 in
  let m := if mp <? 10 then mp + 3 else mp - 9 in
  (if m <=? 2 then y + 1 else y, m, d).

Definition digit (n : Z) : ascii := ascii_of_nat (48 + Z.to_nat (n mod 10)).

Fixpoint pad (w : nat) (n : Z) : string :=
  match w with
  | O => ""
  | S w' => pad w' (n / 10) ++ String (digit n) ""
  end.

Definition toISOString (ms : Z) : string :=
  let days := ms / 86400000 in
  let r := ms mod 86400000 in
  let '(y, m, d) := civil_from_days days in
  pad 4 y ++ "-" ++ pad 2 m ++ "-" ++ pad 2 d ++ "T" ++
  pad 2 (r / 3600000) ++ ":" ++ pad 2 (r / 60000 mod 60) ++ ":" ++
  pad 2 (r / 1000 mod 60) ++ "." ++ pad 3 (r mod 1000) ++ "Z".

Definition digit_val (c : ascii) : option Z :=
  let n := Z.of_nat (nat_of_ascii c) in
  if (48 <=? n) && (n <=? 57) then Some (n - 48) else None.

Fixpoint digits_val (s : string) (acc : Z) : option Z :=
  match s with
  | EmptyString => Some acc
  | String c s' =>
      match digit_val c with
      | Some v => digits_val s' (acc * 10 + v)
      | None => None
      end
  end.

Definition num_at (s : string) (pos len : nat) : option Z :=
  digits_val (String.substring pos len s) 0.

Definition sep_at (s : string) (pos : nat) (c : string) : bool :=
  String.eqb (String.substring pos 1 s) c.

Definition getTime (s : string) : option Z :=
  if negb (Nat.eqb (String.length s) 24) then None
  else if negb (sep_at s 4 "-" && sep_at s 7 "-" && sep_at s 10 "T" &&
                sep_at s 13 ":" && sep_at s 16 ":" && sep_at s 19 "." &&
                sep_at s 23 "Z") then None
  else
    match num_at s 0 4, num_at s 5 2, num_at s 8 2,
          num_at s 11 2, num_at s 14 2, num_at s 17 2, num_at s 20 3 with
    | Some y, Some mo, Some d, Some h, Some mi, Some sec, Some ms =>
        if (1 <=? mo) && (mo <=? 12) && (1 <=? d) && (d <=? 31) &&
           (h <=? 23) && (mi <=? 59) && (sec <=? 59)
        then Some (days_from_civil y mo d * 86400000 + h * 3600000 +
                   mi * 60000 + sec * 1000 + ms)
        else None
    | _, _, _, _, _, _, _ => None
    end.

End IsoDate.

(** ** Data model (types.ts and the repositories' document types) *)

Inductive CalendarProvider := ical | google | icloud | outlook | caldav.

Inductive AuthType := auth_none | auth_password | auth_oauth2.

(** [CalendarCredentials = NoCredentials | PasswordCredentials |
    OAuth2Credentials], tagged by [type]. *)
Inductive CalendarCredentials :=
| NoCredentials
| PasswordCredentials (username password : string)
| OAuth2Credentials (accessToken refreshToken expiresAt : string).

Module CalendarAccountCalendar.
Record t := mk {
  id : string; name : string; color : option string; enabled : bool }.
End CalendarAccountCalendar.

Module AccountDocument.
Record t := mk {
  id : string;
  provider : CalendarProvider;
  name : string;
  url : option string;
  authType : AuthType;
  enabled : bool;
  syncIntervalMs : Z;
  lastSyncAt : option string;
  lastError : option string;
  createdAt : string;
  updatedAt : string;
  calendars : option (list CalendarAccountCalendar.t) }.
End AccountDocument.

Module CalendarAccount.
Record t := mk {
  id : string;
  userId : string;
  provider : CalendarProvider;
  name : string;
  url : option string;
  authType : AuthType;
  credentials : CalendarCredentials;
  enabled : bool;
  syncIntervalMs : Z;
  lastSyncAt : option string;
  lastError : option string;
  createdAt : string;
  updatedAt : string;
  calendars : list CalendarAccountCalendar.t }.
End CalendarAccount.

Module EventDocument.
Record t := mk {
  id : string;
  accountId : string;
  calendarId : string;
  uid : string;
  title : string;
  description : option string;
  location : option string;
  startAt : string;
  endAt : string;
  allDay : bool;
  recurrenceRule : option string;
  organizer : option string;
  attendees : list string;
  responseStatus : option string;
  remoteUrl : option string;
  etag : option string;
  rawIcs : option string;
  createdAt : string;
  updatedAt : string }.
End EventDocument.

Module CalendarEvent.
Record t := mk {
  id : string;
  accountId : string;
  calendarId : string;
  uid : string;
  title : string;
  description : option string;
  location : option string;
  startAt : string;
  endAt : string;
  allDay : bool;
  recurrenceRule : option string;
  organizer : option string;
  attendees : list string;
  responseStatus : option string;
  remoteUrl : option string;
  etag : option string;
  rawIcs : option string;
  createdAt : string;
  updatedAt : string }.
End CalendarEvent.

(** [Omit<CalendarEvent, 'id' | 'createdAt' | 'updatedAt'>]; an absent
    [responseStatus] is [None]. *)
Module EventInput.
Record t := mk {
  accountId : string;
  calendarId : string;
  uid : string;
  title : string;
  description : option string;
  location : option string;
  startAt : string;
  endAt : string;
  allDay : bool;
  recurrenceRule : option string;
  organizer : option string;
  attendees : list string;
  responseStatus : option string;
  remoteUrl : option string;
  etag : option string;
  rawIcs : option string }.
End EventInput.

Module ListEventsOptions.
Record t := mk {
  accountId : option string;
  from : option string;
  to : option string;
  limit : option nat;
  offset : option nat }.
End ListEventsOptions.

Module SyncStateDocument.
Record t := mk {
  id : string;
  accountId : string;
  syncToken : option string;
  deltaLink : option string;
  lastSyncAt : string;
  updatedAt : string }.
End SyncStateDocument.

Module SettingsDocument.
Record t := mk {
  id : string;
  reminderMinutes : Z;
  instruction : string;
  eventInstruction : option string;
  createdAt : string;
  updatedAt : string }.
End SettingsDocument.

Module CalendarSettings.
Record t := mk {
  id : string;
  userId : string;
  reminderMinutes : Z;
  instruction : string;
  eventInstruction : string;
  createdAt : string;
  updatedAt : string }.
End CalendarSettings.

Module SyncResult.
Record t := mk {
  events : list CalendarEvent.t;
  deletedUids : option (list string);
  syncToken : option string;
  deltaLink : option string;
  fullSync : bool }.
End SyncResult.

Module TokenResponse.
Record t := mk {
  accessToken : string;
  refreshToken : string;
  expiresIn : Z;
  tokenType : string }.
End TokenResponse.

Module DeviceCodeConfig.
Record t := mk {
  clientId : string;
  clientSecret : option string;
  deviceCodeUrl : string;
  tokenUrl : string;
  scopes : list string }.
End DeviceCodeConfig.

Module CredentialRefreshConfig.
Record t := mk {
  googleClientId : option string;
  googleClientSecret : option string;
  outlookClientId : option string;
  outlookTenantId : option string }.
End CredentialRefreshConfig.

Module UserProfile.
Record t := mk {
  firstName : option string;
  nickname : option string;
  language : option string;
  timezone : option string }.
End UserProfile.

(** [CalendarAccountInput] as [AccountsRepository.upsert] reads it: every
    field may be [undefined] ([None]); [url] may also be [null]
    ([Some None]). *)
Module CalendarAccountInput.
Record t := mk {
  provider : option CalendarProvider;
  name : option string;
  url : option (option string);
  username : option string;
  password : option string;
  accessToken : option string;
  refreshToken : option string;
  expiresAt : option string;
  enabled : option bool;
  syncIntervalMs : option Z }.
End CalendarAccountInput.

(** [CalendarSettingsUpdate], with the [eventInstruction] that
    [SettingsRepository.update] reads. *)
Module CalendarSettingsUpdate.
Record t := mk {
  reminderMinutes : option Z;
  instruction : option string;
  eventInstruction : option string }.
End CalendarSettingsUpdate.

(** ** Results and remote data *)

(** The outcome of a call: a value, or a thrown [Error] with its message. *)
Inductive Result (A : Type) :=
| Ok (a : A)
| Throw (msg : string).
Arguments Ok {A} a.
Arguments Throw {A} msg.

(** What [fetch] resolves to, with the body already decoded. *)
Module HttpResponse.
Record t (A : Type) := mk {
  ok : bool;
  status : string;
  statusText : string;
  text : string;
  json : A }.
Arguments mk {A}.
Arguments ok {A}.
Arguments status {A}.
Arguments statusText {A}.
Arguments text {A}.
Arguments json {A}.
End HttpResponse.

(** The JSON body of the token endpoint. *)
Module TokenData.
Record t := mk {
  access_token : string;
  refresh_token : option string;
  expires_in : Z;
  token_type : string }.
End TokenData.

(** Google Calendar API v3 resources, as far as the provider reads them. *)
Module GoogleTime.
Record t := mk { dateTime : option string; date : option string }.
End GoogleTime.

Module GoogleItem.
Record t := mk {
  status : option string;
  iCalUID : option string;
  id : string;
  summary : option string;
  description : option string;
  location : option string;
  start : option GoogleTime.t;
  end_ : option GoogleTime.t;
  organizerEmail : option string;
  attendees : list string;
  htmlLink : option string;
  etag : option string }.
End GoogleItem.

Module GoogleEvents.
Record t := mk {
  nextSyncToken : option string;
  items : option (list GoogleItem.t) }.
End GoogleEvents.

Module GoogleCalendarListEntry.
Record t := mk {
  id : string;
  summary : option string;
  backgroundColor : option string;
  accessRole : option string }.
End GoogleCalendarListEntry.

Module RemoteCalendar.
Record t := mk {
  id : string; name : string; color : option string; readOnly : bool }.
End RemoteCalendar.

(** The events request the Google provider builds: by sync token, or by
    time range ([timeMin], [timeMax], [maxResults=2500]). *)
Inductive GoogleQuery :=
| BySyncToken (syncToken : string)
| ByRange (timeMin timeMax : string).

(** What the iCal codec ([ical.js]) gives for a VEVENT: [ICAL.Event] and
    the properties [buildEvent] reads.  [iterator k] is what the [k]-th
    call of [iterator.next()] yields, with its occurrence details;
    [None] once the recurrence is exhausted. *)
Module Occurrence.
Record t := mk { startDate : Z; endDate : Z }.
End Occurrence.

Module Attendee.
Record t := mk {
  (** [getFirstValue()] when it is a string. *)
  value : option string;
  partstat : option string }.
End Attendee.

Module VEvent.
Record t := mk {
  uid : string;
  isRecurring : bool;
  iterator : nat -> option Occurrence.t;
  startDate : Z;
  startIsDate : bool;
  endDate : option Z;
  summary : option string;
  description : option string;
  location : option string;
  rrule : option string;
  organizer : option string;
  attendees : list Attendee.t;
  toString : string }.
End VEvent.

(** ** The host: JavaScript built-ins and the network

    [Date] parsing and printing and the remote services are outside the
    repository.  The program is stated over any host; remote calls answer
    with a [Result]. *)

Class Host := {
  (** [new Date(s).getTime()]; [None] is [NaN]. *)
  Date_getTime : string -> option Z;
  (** [new Date(ms).toISOString()]. *)
  Date_toISOString : Z -> string;
  (** [fetch(config.tokenUrl, POST refresh_token grant)]. *)
  fetchToken :
    DeviceCodeConfig.t -> string -> Result (HttpResponse.t TokenData.t);
  (** [fetch(GOOGLE_API_BASE + '/users/me/calendarList')] with a bearer
      token; the body's [items]. *)
  fetchGoogleCalendarList :
    string -> Result (HttpResponse.t (option (list GoogleCalendarListEntry.t)));
  (** [fetch(GOOGLE_API_BASE + '/calendars/{id}/events?...')]. *)
  fetchGoogleEvents :
    string -> string -> GoogleQuery -> Result (HttpResponse.t GoogleEvents.t);
  (** [syncEvents] of the iCal, iCloud, Outlook and CalDAV providers. *)
  remoteSyncEvents :
    CalendarProvider -> CalendarAccount.t -> CalendarCredentials ->
    Z -> Z -> option string -> Result SyncResult.t;
  (** [fetch(account.url)] of the iCal provider. *)
  fetchICal : string -> Result (HttpResponse.t unit);
  (** [ICAL.parse] and [getAllSubcomponents('vevent')]. *)
  ICAL_parse : string -> Result (list VEvent.t);
  (** [deps.user.getProfile(userId)]. *)
  userGetProfile : string -> Result UserProfile.t }.

(** ** The world: storage, secrets, clock and trace *)

(** Calls the program makes to its collaborators, newest first in the
    trace.  [CallFireReminder] marks an invocation of [fireReminder]. *)
Inductive Call :=
| CallFetchToken (config : DeviceCodeConfig.t) (refreshToken : string)
| CallSyncEvents (provider : CalendarProvider) (accountId : string)
    (syncToken : option string)
| CallFireReminder (event : CalendarEvent.t)
| CallAppendInstruction (text userId : string)
| CallLog (level msg detail : string)
| CallEmitEventChanged.

Record World := mkWorld {
  (** [Date.now()]. *)
  clock : Z;
  (** What [Date.now().toString(36) + Math.random()...] yields next. *)
  entropy : list string;
  (** Fault schedule of the host's storage, secrets, chat and
      notification calls: each call consumes the head; [Some msg] makes it
      throw [msg]; an empty schedule means no fault. *)
  faults : list (option string);
  accountsColl : list AccountDocument.t;
  eventsColl : list EventDocument.t;
  syncStateColl : list SyncStateDocument.t;
  settingsColl : list SettingsDocument.t;
  secrets : gmap string CalendarCredentials;
  trace : list Call }.

Definition set_entropy (x : list string) (w : World) : World :=
  mkWorld (clock w) x (faults w) (accountsColl w) (eventsColl w)
    (syncStateColl w) (settingsColl w) (secrets w) (trace w).
Definition set_faults (x : list (option string)) (w : World) : World :=
  mkWorld (clock w) (entropy w) x (accountsColl w) (eventsColl w)
    (syncStateColl w) (settingsColl w) (secrets w) (trace w).
Definition set_accountsColl (x : list AccountDocument.t) (w : World) : World :=
  mkWorld (clock w) (entropy w) (faults w) x (eventsColl w)
    (syncStateColl w) (settingsColl w) (secrets w) (trace w).
Definition set_eventsColl (x : list EventDocument.t) (w : World) : World :=
  mkWorld (clock w) (entropy w) (faults w) (accountsColl w) x
    (syncStateColl w) (settingsColl w) (secrets w) (trace w).
Definition set_syncStateColl (x : list SyncStateDocument.t) (w : World) : World :=
  mkWorld (clock w) (entropy w) (faults w) (accountsColl w) (eventsColl w)
    x (settingsColl w) (secrets w) (trace w).
Definition set_settingsColl (x : list SettingsDocument.t) (w : World) : World :=
  mkWorld (clock w) (entropy w) (faults w) (accountsColl w) (eventsColl w)
    (syncStateColl w) x (secrets w) (trace w).
Definition set_secrets (x : gmap string CalendarCredentials) (w : World) : World :=
  mkWorld (clock w) (entropy w) (faults w) (accountsColl w) (eventsColl w)
    (syncStateColl w) (settingsColl w) x (trace w).
Definition set_trace (x : list Call) (w : World) : World :=
  mkWorld (clock w) (entropy w) (faults w) (accountsColl w) (eventsColl w)
    (syncStateColl w) (settingsColl w) (secrets w) x.

(** ** The monad of effects *)

Definition M (A : Type) : Type := World -> Result A * World.

Definition ret {A} (a : A) : M A := fun w => (Ok a, w).

Definition bind {A B} (c : M A) (k : A -> M B) : M B := fun w =>
  match c w with
  | (Ok a, w') => k a w'
  | (Throw msg, w') => (Throw msg, w')
  end.

Definition throw {A} (msg : string) : M A := fun w => (Throw msg, w).

(** [try { body } catch (error) { handler(error.message) }]. *)
Definition try_catch {A} (body : M A) (handler : string -> M A) : M A :=
  fun w =>
    match body w with
    | (Ok a, w') => (Ok a, w')
    | (Throw msg, w') => handler msg w'
    end.

(** Awaiting a remote answer. *)
Definition await {A} (r : Result A) : M A := fun w => (r, w).

Declare Scope monad_scope.
Delimit Scope monad_scope with M.
Notation "x <- c ;; k" := (bind c (fun x => k))
  (at level 100, c at next level, right associativity) : monad_scope.
Notation "c ;;; k" := (bind c (fun _ => k))
  (at level 100, right associativity) : monad_scope.
Open Scope monad_scope.

(** [for (const x of xs) { await body(x) }]: stops at the first throw. *)
Fixpoint for_of {A} (xs : list A) (body : A -> M unit) : M unit :=
  match xs with
  | [] => ret tt
  | x :: rest => body x ;;; for_of rest body
  end.

Definition record (c : Call) : M unit := fun w =>
  (Ok tt, set_trace (c :: trace w) w).

(** [deps.log.warn / info / debug]: the logger does not throw. *)
Definition log (level msg detail : string) : M unit :=
  record (CallLog level msg detail).

(** One call into the host's storage, secrets, chat or notification API. *)
Definition tick : M unit := fun w =>
  match faults w with
  | [] => (Ok tt, w)
  | None :: rest => (Ok tt, set_faults rest w)
  | Some msg :: rest => (Throw msg, set_faults rest w)
  end.

Definition Date_now : M Z := fun w => (Ok (clock w), w).

(** ** StorageAPI

    A collection is the list of its documents in insertion order, one
    document per id. *)

Record Collection (D : Type) := mkCollection {
  coll_get : World -> list D;
  coll_set : list D -> World -> World;
  doc_id : D -> string }.
Arguments coll_get {D}.
Arguments coll_set {D}.
Arguments doc_id {D}.

Definition accounts_c : Collection AccountDocument.t :=
  mkCollection _ accountsColl set_accountsColl AccountDocument.id.
Definition events_c : Collection EventDocument.t :=
  mkCollection _ eventsColl set_eventsColl EventDocument.id.
Definition syncState_c : Collection SyncStateDocument.t :=
  mkCollection _ syncStateColl set_syncStateColl SyncStateDocument.id.
Definition settings_c : Collection SettingsDocument.t :=
  mkCollection _ settingsColl set_settingsColl SettingsDocument.id.

Module Storage.

Section Docs.
Context {D : Type} (doc_id : D -> string).

Definition has_id (id : string) (d : D) : bool := String.eqb (doc_id d) id.

Definition get_doc (id : string) (docs : list D) : option D :=
  List.find (has_id id) docs.

(** [put] replaces the document stored under [id], or appends. *)
Definition put_doc (id : string) (doc : D) (docs : list D) : list D :=
  if existsb (has_id id) docs
  then map (fun d => if has_id id d then doc else d) docs
  else docs ++ [doc].

Definition delete_doc (id : string) (docs : list D) : list D :=
  List.filter (fun d => negb (has_id id d)) docs.

End Docs.

Section Sort.
Context {D : Type} (key : D -> string).

Fixpoint insert_sorted (d : D) (docs : list D) : list D :=
  match docs with
  | [] => [d]
  | x :: rest =>
      if String.leb (key d) (key x) then d :: x :: rest
      else x :: insert_sorted d rest
  end.

(** [sort: { key: 'asc' }], stable. *)
Definition sort_asc (docs : list D) : list D :=
  fold_right insert_sorted [] docs.

End Sort.

Section Api.
Context {D : Type} (C : Collection D).

Definition get (id : string) : M (option D) :=
  tick ;;; fun w => (Ok (get_doc (doc_id C) id (coll_get C w)), w).

Definition put (id : string) (doc : D) : M unit :=
  tick ;;; fun w =>
    (Ok tt, coll_set C (put_doc (doc_id C) id doc (coll_get C w)) w).

Definition delete (id : string) : M unit :=
  tick ;;; fun w =>
    (Ok tt, coll_set C (delete_doc (doc_id C) id (coll_get C w)) w).

Definition deleteMany (query : D -> bool) : M unit :=
  tick ;;; fun w =>
    (Ok tt, coll_set C (List.filter (fun d => negb (query d)) (coll_get C w)) w).

Definition findOne (query : D -> bool) : M (option D) :=
  tick ;;; fun w => (Ok (List.find query (coll_get C w)), w).

(** [find(collection, query, { sort: { key: 'asc' }, limit, offset })]. *)
Definition find (query : D -> bool) (sortKey : option (D -> string))
    (limit : option nat) (offset : nat) : M (list D) :=
  tick ;;; fun w =>
    let matching := List.filter query (coll_get C w) in
    let sorted :=
      match sortKey with
      | Some key => sort_asc key matching
      | None => matching
      end in
    let skipped := drop offset sorted in
    (Ok (match limit with Some n => take n skipped | None => skipped end), w).

End Api.

End Storage.

(** [for (const x of xs) { ys.push(await f(x)) }]. *)
Fixpoint map_m {A B} (f : A -> M B) (xs : list A) : M (list B) :=
  match xs with
  | [] => ret []
  | x :: rest => y <- f x ;; ys <- map_m f rest ;; ret (y :: ys)
  end.

(** [generateId(prefix)]: [`${prefix}_${timestamp}${random}`]. *)
Definition generateId (prefix : string) : M string := fun w =>
  match entropy w with
  | [] => (Ok (prefix ++ "_"), w)
  | r :: rest => (Ok (prefix ++ "_" ++ r), set_entropy rest w)
  end.

(** ** EventsRepository (db/eventsRepository.ts) *)

Module EventsRepository.

Definition toCalendarEvent (doc : EventDocument.t) : CalendarEvent.t :=
  {| CalendarEvent.id := EventDocument.id doc;
     CalendarEvent.accountId := EventDocument.accountId doc;
     CalendarEvent.calendarId := EventDocument.calendarId doc;
     CalendarEvent.uid := EventDocument.uid doc;
     CalendarEvent.title := EventDocument.title doc;
     CalendarEvent.description := EventDocument.description doc;
     CalendarEvent.location := EventDocument.location doc;
     CalendarEvent.startAt := EventDocument.startAt doc;
     CalendarEvent.endAt := EventDocument.endAt doc;
     CalendarEvent.allDay := EventDocument.allDay doc;
     CalendarEvent.recurrenceRule := EventDocument.recurrenceRule doc;
     CalendarEvent.organizer := EventDocument.organizer doc;
     CalendarEvent.attendees := EventDocument.attendees doc;
     CalendarEvent.responseStatus := EventDocument.responseStatus doc;
     CalendarEvent.remoteUrl := EventDocument.remoteUrl doc;
     CalendarEvent.etag := EventDocument.etag doc;
     CalendarEvent.rawIcs := EventDocument.rawIcs doc;
     CalendarEvent.createdAt := EventDocument.createdAt doc;
     CalendarEvent.updatedAt := EventDocument.updatedAt doc |}.

(** The document [upsertByUid] writes: every field of the input, under the
    given [id] and [createdAt], with [updatedAt = now]. *)
Definition mkDoc (id accountId : string) (event : EventInput.t)
    (createdAt now : string) : EventDocument.t :=
  {| EventDocument.id := id;
     EventDocument.accountId := accountId;
     EventDocument.calendarId := EventInput.calendarId event;
     EventDocument.uid := EventInput.uid event;
     EventDocument.title := EventInput.title event;
     EventDocument.description := EventInput.description event;
     EventDocument.location := EventInput.location event;
     EventDocument.startAt := EventInput.startAt event;
     EventDocument.endAt := EventInput.endAt event;
     EventDocument.allDay := EventInput.allDay event;
     EventDocument.recurrenceRule := EventInput.recurrenceRule event;
     EventDocument.organizer := EventInput.organizer event;
     EventDocument.attendees := EventInput.attendees event;
     EventDocument.responseStatus := EventInput.responseStatus event;
     EventDocument.remoteUrl := EventInput.remoteUrl event;
     EventDocument.etag := EventInput.etag event;
     EventDocument.rawIcs := EventInput.rawIcs event;
     EventDocument.createdAt := createdAt;
     EventDocument.updatedAt := now |}.

(** The query [{ accountId, uid }]. *)
Definition by_uid (accountId uid : string) (d : EventDocument.t) : bool :=
  String.eqb (EventDocument.accountId d) accountId &&
  String.eqb (EventDocument.uid d) uid.

(** The query of [list]: [{}], or [{ accountId }] when one is given. *)
Definition list_query (accountId : option string) (d : EventDocument.t) : bool :=
  if JS.truthy accountId
  then String.eqb (EventDocument.accountId d) (default "" accountId)
  else true.

(** The three filters of [list], in its order. *)
Definition list_filter (from to : option string)
    (docs : list EventDocument.t) : list EventDocument.t :=
  let filtered := docs in
  let filtered :=
    match from with
    | Some f =>
        if JS.truthy from
        then List.filter (fun d => JS.str_ge (EventDocument.endAt d) f) filtered
        else filtered
    | None => filtered
    end in
  let filtered :=
    match to with
    | Some t =>
        if JS.truthy to
        then List.filter (fun d => JS.str_le (EventDocument.startAt d) t) filtered
        else filtered
    | None => filtered
    end in
  List.filter
    (fun d => negb (bool_decide (EventDocument.responseStatus d = Some "declined")))
    filtered.

Section WithHost.
Context `{Host}.

Definition get (id : string) : M (option CalendarEvent.t) :=
  doc <- Storage.get events_c id ;;
  ret (option_map toCalendarEvent doc).

Definition getByUid (accountId uid : string) : M (option CalendarEvent.t) :=
  doc <- Storage.findOne events_c (by_uid accountId uid) ;;
  ret (option_map toCalendarEvent doc).

Definition upsertByUid (accountId : string) (event : EventInput.t)
    : M CalendarEvent.t :=
  nowMs <- Date_now ;;
  let now := Date_toISOString nowMs in
  existing <- getByUid accountId (EventInput.uid event) ;;
  match existing with
  | Some ex =>
      let doc := mkDoc (CalendarEvent.id ex) accountId event
                   (CalendarEvent.createdAt ex) now in
      Storage.put events_c (CalendarEvent.id ex) doc ;;;
      ret (toCalendarEvent doc)
  | None =>
      id <- generateId "evt" ;;
      let doc := mkDoc id accountId event now now in
      Storage.put events_c id doc ;;;
      ret (toCalendarEvent doc)
  end.

Definition delete (id : string) : M bool :=
  doc <- Storage.get events_c id ;;
  match doc with
  | None => ret false
  | Some _ => Storage.delete events_c id ;;; ret true
  end.

Definition deleteByAccount (accountId : string) : M unit :=
  Storage.deleteMany events_c
    (fun d => String.eqb (EventDocument.accountId d) accountId).

Definition list (options : ListEventsOptions.t) : M (Datatypes.list CalendarEvent.t) :=
  let accountId := ListEventsOptions.accountId options in
  let from := ListEventsOptions.from options in
  let to := ListEventsOptions.to options in
  let limit := default 100%nat (ListEventsOptions.limit options) in
  let offset := default 0%nat (ListEventsOptions.offset options) in
  docs <- Storage.find events_c (list_query accountId)
            (Some EventDocument.startAt) (Some (limit + offset)%nat) 0 ;;
  let filtered := list_filter from to docs in
  ret (map toCalendarEvent (JS.slice filtered offset (offset + limit))).

Definition getUpcoming (fromDate toDate : string)
    : M (Datatypes.list CalendarEvent.t) :=
  list {| ListEventsOptions.accountId := None;
          ListEventsOptions.from := Some fromDate;
          ListEventsOptions.to := Some toDate;
          ListEventsOptions.limit := Some 200%nat;
          ListEventsOptions.offset := None |}.

End WithHost.

End EventsRepository.

(** ** AccountsRepository (db/accountsRepository.ts) *)

Module AccountsRepository.

Definition getCredentialsKey (accountId : string) : string :=
  "account-" ++ accountId ++ "-credentials".

Definition toCalendarAccount (doc : AccountDocument.t)
    (credentials : CalendarCredentials) : CalendarAccount.t :=
  {| CalendarAccount.id := AccountDocument.id doc;
     CalendarAccount.userId := "";
     CalendarAccount.provider := AccountDocument.provider doc;
     CalendarAccount.name := AccountDocument.name doc;
     CalendarAccount.url := AccountDocument.url doc;
     CalendarAccount.authType := AccountDocument.authType doc;
     CalendarAccount.credentials := credentials;
     CalendarAccount.enabled := AccountDocument.enabled doc;
     CalendarAccount.syncIntervalMs := AccountDocument.syncIntervalMs doc;
     CalendarAccount.lastSyncAt := AccountDocument.lastSyncAt doc;
     CalendarAccount.lastError := AccountDocument.lastError doc;
     CalendarAccount.createdAt := AccountDocument.createdAt doc;
     CalendarAccount.updatedAt := AccountDocument.updatedAt doc;
     CalendarAccount.calendars := default [] (AccountDocument.calendars doc) |}.

(** [{ ...doc, lastSyncAt: now, lastError: error, updatedAt: now }]. *)
Definition withSyncStatus (doc : AccountDocument.t) (now : string)
    (error : option string) : AccountDocument.t :=
  {| AccountDocument.id := AccountDocument.id doc;
     AccountDocument.provider := AccountDocument.provider doc;
     AccountDocument.name := AccountDocument.name doc;
     AccountDocument.url := AccountDocument.url doc;
     AccountDocument.authType := AccountDocument.authType doc;
     AccountDocument.enabled := AccountDocument.enabled doc;
     AccountDocument.syncIntervalMs := AccountDocument.syncIntervalMs doc;
     AccountDocument.lastSyncAt := Some now;
     AccountDocument.lastError := error;
     AccountDocument.createdAt := AccountDocument.createdAt doc;
     AccountDocument.updatedAt := now;
     AccountDocument.calendars := AccountDocument.calendars doc |}.

(** [{ ...doc, updatedAt: now }]. *)
Definition withUpdatedAt (doc : AccountDocument.t) (now : string)
    : AccountDocument.t :=
  {| AccountDocument.id := AccountDocument.id doc;
     AccountDocument.provider := AccountDocument.provider doc;
     AccountDocument.name := AccountDocument.name doc;
     AccountDocument.url := AccountDocument.url doc;
     AccountDocument.authType := AccountDocument.authType doc;
     AccountDocument.enabled := AccountDocument.enabled doc;
     AccountDocument.syncIntervalMs := AccountDocument.syncIntervalMs doc;
     AccountDocument.lastSyncAt := AccountDocument.lastSyncAt doc;
     AccountDocument.lastError := AccountDocument.lastError doc;
     AccountDocument.createdAt := AccountDocument.createdAt doc;
     AccountDocument.updatedAt := now;
     AccountDocument.calendars := AccountDocument.calendars doc |}.

(** [secrets.set(key, JSON.stringify(credentials))]; the secret store
    holds the credentials themselves. *)
Definition saveCredentials (accountId : string)
    (credentials : CalendarCredentials) : M unit :=
  let key := getCredentialsKey accountId in
  tick ;;; fun w => (Ok tt, set_secrets (<[key := credentials]> (secrets w)) w).

Definition loadCredentials (accountId : string) (authType : AuthType)
    : M CalendarCredentials :=
  let key := getCredentialsKey accountId in
  tick ;;;
  stored <- (fun w => (Ok (secrets w !! key), w)) ;;
  match stored with
  | Some credentials => ret credentials
  | None =>
      match authType with
      | auth_oauth2 => ret (OAuth2Credentials "" "" "")
      | auth_password => ret (PasswordCredentials "" "")
      | auth_none => ret NoCredentials
      end
  end.

Section WithHost.
Context `{Host}.

(** [list(options = {})]: [limit = 50], [offset = 0] by default. *)
Definition list (limit : option nat) (offset : option nat)
    : M (Datatypes.list CalendarAccount.t) :=
  let limit := default 50%nat limit in
  let offset := default 0%nat offset in
  docs <- Storage.find accounts_c (fun _ => true)
            (Some AccountDocument.name) (Some limit) offset ;;
  map_m (fun doc =>
           credentials <- loadCredentials (AccountDocument.id doc)
                            (AccountDocument.authType doc) ;;
           ret (toCalendarAccount doc credentials))
        docs.

Definition updateSyncStatus (id : string) (error : option string) : M unit :=
  doc <- Storage.get accounts_c id ;;
  match doc with
  | None => ret tt
  | Some doc =>
      nowMs <- Date_now ;;
      let now := Date_toISOString nowMs in
      Storage.put accounts_c id (withSyncStatus doc now error)
  end.

Definition updateCredentials (id : string) (credentials : CalendarCredentials)
    : M unit :=
  doc <- Storage.get accounts_c id ;;
  match doc with
  | None => ret tt
  | Some doc =>
      nowMs <- Date_now ;;
      let now := Date_toISOString nowMs in
      Storage.put accounts_c id (withUpdatedAt doc now) ;;;
      saveCredentials id credentials
  end.

(** [{ ...doc, calendars, updatedAt: now }]. *)
Definition withCalendars (doc : AccountDocument.t)
    (calendars : Datatypes.list CalendarAccountCalendar.t) (now : string)
    : AccountDocument.t :=
  {| AccountDocument.id := AccountDocument.id doc;
     AccountDocument.provider := AccountDocument.provider doc;
     AccountDocument.name := AccountDocument.name doc;
     AccountDocument.url := AccountDocument.url doc;
     AccountDocument.authType := AccountDocument.authType doc;
     AccountDocument.enabled := AccountDocument.enabled doc;
     AccountDocument.syncIntervalMs := AccountDocument.syncIntervalMs doc;
     AccountDocument.lastSyncAt := AccountDocument.lastSyncAt doc;
     AccountDocument.lastError := AccountDocument.lastError doc;
     AccountDocument.createdAt := AccountDocument.createdAt doc;
     AccountDocument.updatedAt := now;
     AccountDocument.calendars := Some calendars |}.

Definition updateCalendars (id : string)
    (calendars : Datatypes.list CalendarAccountCalendar.t) : M unit :=
  doc <- Storage.get accounts_c id ;;
  match doc with
  | None => ret tt
  | Some doc =>
      nowMs <- Date_now ;;
      let now := Date_toISOString nowMs in
      Storage.put accounts_c id (withCalendars doc calendars now)
  end.

Definition get (id : string) : M (option CalendarAccount.t) :=
  doc <- Storage.get accounts_c id ;;
  match doc with
  | None => ret None
  | Some doc =>
      credentials <- loadCredentials id (AccountDocument.authType doc) ;;
      ret (Some (toCalendarAccount doc credentials))
  end.

(** The credentials and [authType] that [upsert] derives from its input:
    OAuth2 when an access and a refresh token are given, a password login
    when a password is, none otherwise. *)
Definition input_credentials (input : CalendarAccountInput.t) (nowMs : Z)
    : AuthType * CalendarCredentials :=
  if JS.truthy (CalendarAccountInput.accessToken input) &&
     JS.truthy (CalendarAccountInput.refreshToken input)
  then (auth_oauth2,
        OAuth2Credentials
          (default "" (CalendarAccountInput.accessToken input))
          (default "" (CalendarAccountInput.refreshToken input))
          (default (Date_toISOString (nowMs + 3600 * 1000))
             (CalendarAccountInput.expiresAt input)))
  else if JS.truthy (CalendarAccountInput.password input)
  then (auth_password,
        PasswordCredentials
          (default "" (CalendarAccountInput.username input))
          (default "" (CalendarAccountInput.password input)))
  else (auth_none, NoCredentials).

(** [input.password || input.accessToken], as a condition. *)
Definition gives_credentials (input : CalendarAccountInput.t) : bool :=
  JS.truthy (CalendarAccountInput.password input) ||
  JS.truthy (CalendarAccountInput.accessToken input).

Definition upsert (id : option string) (input : CalendarAccountInput.t)
    : M CalendarAccount.t :=
  nowMs <- Date_now ;;
  let now := Date_toISOString nowMs in
  accountId <- match id with
               | Some id => ret id
               | None => generateId "cal"
               end ;;
  existing <- (if JS.truthy id then get (default "" id) else ret None) ;;
  let authType := fst (input_credentials input nowMs) in
  let credentials := snd (input_credentials input nowMs) in
  match existing with
  | Some existing =>
      let name :=
        default (CalendarAccount.name existing) (CalendarAccountInput.name input) in
      let provider :=
        default (CalendarAccount.provider existing)
          (CalendarAccountInput.provider input) in
      let url :=
        default (CalendarAccount.url existing) (CalendarAccountInput.url input) in
      let enabled :=
        default (CalendarAccount.enabled existing)
          (CalendarAccountInput.enabled input) in
      let syncIntervalMs :=
        default (CalendarAccount.syncIntervalMs existing)
          (CalendarAccountInput.syncIntervalMs input) in
      let finalCredentials :=
        if gives_credentials input then credentials
        else CalendarAccount.credentials existing in
      let finalAuthType :=
        if gives_credentials input then authType
        else CalendarAccount.authType existing in
      let doc :=
        {| AccountDocument.id := accountId;
           AccountDocument.provider := provider;
           AccountDocument.name := name;
           AccountDocument.url := url;
           AccountDocument.authType := finalAuthType;
           AccountDocument.enabled := enabled;
           AccountDocument.syncIntervalMs := syncIntervalMs;
           AccountDocument.lastSyncAt := CalendarAccount.lastSyncAt existing;
           AccountDocument.lastError := CalendarAccount.lastError existing;
           AccountDocument.createdAt := CalendarAccount.createdAt existing;
           AccountDocument.updatedAt := now;
           AccountDocument.calendars := None |} in
      Storage.put accounts_c accountId doc ;;;
      (if gives_credentials input
       then saveCredentials accountId finalCredentials
       else ret tt) ;;;
      ret (toCalendarAccount doc finalCredentials)
  | None =>
      (* [if (!input.name || !input.provider) throw ...] *)
      match CalendarAccountInput.provider input with
      | Some provider =>
          if negb (JS.truthy (CalendarAccountInput.name input))
          then throw "Name and provider are required for new accounts"
          else
            let defaultSyncInterval :=
              match provider with
              | ical => 30 * 60 * 1000
              | _ => 10 * 60 * 1000
              end in
            let doc :=
              {| AccountDocument.id := accountId;
                 AccountDocument.provider := provider;
                 AccountDocument.name :=
                   default "" (CalendarAccountInput.name input);
                 AccountDocument.url :=
                   default None (CalendarAccountInput.url input);
                 AccountDocument.authType := authType;
                 AccountDocument.enabled :=
                   default true (CalendarAccountInput.enabled input);
                 AccountDocument.syncIntervalMs :=
                   default defaultSyncInterval
                     (CalendarAccountInput.syncIntervalMs input);
                 AccountDocument.lastSyncAt := None;
                 AccountDocument.lastError := None;
                 AccountDocument.createdAt := now;
                 AccountDocument.updatedAt := now;
                 AccountDocument.calendars := None |} in
            Storage.put accounts_c accountId doc ;;;
            saveCredentials accountId credentials ;;;
            ret (toCalendarAccount doc credentials)
      | None => throw "Name and provider are required for new accounts"
      end
  end.

(** [delete]: the stored secret goes first, then the document. *)
Definition delete (id : string) : M bool :=
  doc <- Storage.get accounts_c id ;;
  match doc with
  | None => ret false
  | Some _ =>
      (tick ;;; fun w =>
         (Ok tt, set_secrets (base.delete (getCredentialsKey id) (secrets w)) w)) ;;;
      Storage.delete accounts_c id ;;;
      ret true
  end.

End WithHost.

End AccountsRepository.

(** ** SyncStateRepository (db/syncStateRepository.ts) *)

Module SyncStateRepository.

Definition by_account (accountId : string) (d : SyncStateDocument.t) : bool :=
  String.eqb (SyncStateDocument.accountId d) accountId.

Section WithHost.
Context `{Host}.

Definition get (accountId : string) : M (option SyncStateDocument.t) :=
  Storage.findOne syncState_c (by_account accountId).

Definition upsert (accountId : string) (syncToken deltaLink : option string)
    : M SyncStateDocument.t :=
  nowMs <- Date_now ;;
  let now := Date_toISOString nowMs in
  existing <- Storage.findOne syncState_c (by_account accountId) ;;
  match existing with
  | Some ex =>
      let doc :=
        {| SyncStateDocument.id := SyncStateDocument.id ex;
           SyncStateDocument.accountId := SyncStateDocument.accountId ex;
           SyncStateDocument.syncToken := syncToken;
           SyncStateDocument.deltaLink := deltaLink;
           SyncStateDocument.lastSyncAt := now;
           SyncStateDocument.updatedAt := now |} in
      Storage.put syncState_c (SyncStateDocument.id ex) doc ;;;
      ret doc
  | None =>
      let id := "sync_" ++ accountId in
      let doc :=
        {| SyncStateDocument.id := id;
           SyncStateDocument.accountId := accountId;
           SyncStateDocument.syncToken := syncToken;
           SyncStateDocument.deltaLink := deltaLink;
           SyncStateDocument.lastSyncAt := now;
           SyncStateDocument.updatedAt := now |} in
      Storage.put syncState_c id doc ;;;
      ret doc
  end.

Definition delete (accountId : string) : M unit :=
  Storage.deleteMany syncState_c (by_account accountId).

End WithHost.

End SyncStateRepository.

(** ** SettingsRepository (db/settingsRepository.ts) *)

Module SettingsRepository.

Section WithHost.
Context `{Host}.

Definition get : M CalendarSettings.t :=
  let settingsId := "user-settings" in
  doc <- Storage.get settings_c settingsId ;;
  match doc with
  | Some doc =>
      ret {| CalendarSettings.id := SettingsDocument.id doc;
             CalendarSettings.userId := "";
             CalendarSettings.reminderMinutes := SettingsDocument.reminderMinutes doc;
             CalendarSettings.instruction := SettingsDocument.instruction doc;
             CalendarSettings.eventInstruction :=
               default "" (SettingsDocument.eventInstruction doc);
             CalendarSettings.createdAt := SettingsDocument.createdAt doc;
             CalendarSettings.updatedAt := SettingsDocument.updatedAt doc |}
  | None =>
      nowMs <- Date_now ;;
      let now := Date_toISOString nowMs in
      let newDoc :=
        {| SettingsDocument.id := settingsId;
           SettingsDocument.reminderMinutes := 15;
           SettingsDocument.instruction := "";
           SettingsDocument.eventInstruction := Some "";
           SettingsDocument.createdAt := now;
           SettingsDocument.updatedAt := now |} in
      Storage.put settings_c settingsId newDoc ;;;
      ret {| CalendarSettings.id := settingsId;
             CalendarSettings.userId := "";
             CalendarSettings.reminderMinutes := 15;
             CalendarSettings.instruction := "";
             CalendarSettings.eventInstruction := "";
             CalendarSettings.createdAt := now;
             CalendarSettings.updatedAt := now |}
  end.

Definition update (update : CalendarSettingsUpdate.t) : M CalendarSettings.t :=
  settings <- get ;;
  nowMs <- Date_now ;;
  let now := Date_toISOString nowMs in
  let reminderMinutes :=
    default (CalendarSettings.reminderMinutes settings)
      (CalendarSettingsUpdate.reminderMinutes update) in
  let instruction :=
    default (CalendarSettings.instruction settings)
      (CalendarSettingsUpdate.instruction update) in
  let eventInstruction :=
    default (CalendarSettings.eventInstruction settings)
      (CalendarSettingsUpdate.eventInstruction update) in
  let doc :=
    {| SettingsDocument.id := CalendarSettings.id settings;
       SettingsDocument.reminderMinutes := reminderMinutes;
       SettingsDocument.instruction := instruction;
       SettingsDocument.eventInstruction := Some eventInstruction;
       SettingsDocument.createdAt := CalendarSettings.createdAt settings;
       SettingsDocument.updatedAt := now |} in
  Storage.put settings_c (CalendarSettings.id settings) doc ;;;
  ret {| CalendarSettings.id := CalendarSettings.id settings;
         CalendarSettings.userId := CalendarSettings.userId settings;
         CalendarSettings.reminderMinutes := reminderMinutes;
         CalendarSettings.instruction := instruction;
         CalendarSettings.eventInstruction := eventInstruction;
         CalendarSettings.createdAt := CalendarSettings.createdAt settings;
         CalendarSettings.updatedAt := now |}.

End WithHost.

End SettingsRepository.

(** ** OAuth2 token refresh (oauth/device-code.ts, google.ts, outlook.ts) *)

Module OAuth.

Module GoogleCalendarOAuthConfig.
Record t := mk { clientId : string; clientSecret : string }.
End GoogleCalendarOAuthConfig.

Module OutlookCalendarOAuthConfig.
Record t := mk { clientId : string; tenantId : option string }.
End OutlookCalendarOAuthConfig.

Definition GOOGLE_DEVICE_CODE_URL := "https://oauth2.googleapis.com/device/code".
Definition GOOGLE_TOKEN_URL := "https://oauth2.googleapis.com/token".
Definition GOOGLE_CALENDAR_SCOPES := ["https://www.googleapis.com/auth/calendar"].

Definition MS_AUTH_BASE := "https://login.microsoftonline.com".
Definition DEFAULT_OUTLOOK_CALENDAR_CLIENT_ID := "22f6cd67-c896-49b6-b68e-89d90035e0a7".
Definition OUTLOOK_CALENDAR_SCOPES :=
  ["https://graph.microsoft.com/Calendars.ReadWrite"; "offline_access"].

Definition createGoogleConfig (config : GoogleCalendarOAuthConfig.t)
    : DeviceCodeConfig.t :=
  {| DeviceCodeConfig.clientId := GoogleCalendarOAuthConfig.clientId config;
     DeviceCodeConfig.clientSecret :=
       Some (GoogleCalendarOAuthConfig.clientSecret config);
     DeviceCodeConfig.deviceCodeUrl := GOOGLE_DEVICE_CODE_URL;
     DeviceCodeConfig.tokenUrl := GOOGLE_TOKEN_URL;
     DeviceCodeConfig.scopes := GOOGLE_CALENDAR_SCOPES |}.

(** [getOutlookEndpoints(tenantId = 'common')]. *)
Definition getOutlookEndpoints (tenantId : option string) : string * string :=
  let tenant := default "common" tenantId in
  (MS_AUTH_BASE ++ "/" ++ tenant ++ "/oauth2/v2.0/devicecode",
   MS_AUTH_BASE ++ "/" ++ tenant ++ "/oauth2/v2.0/token").

Definition createOutlookConfig (config : OutlookCalendarOAuthConfig.t)
    : DeviceCodeConfig.t :=
  let endpoints := getOutlookEndpoints (OutlookCalendarOAuthConfig.tenantId config) in
  {| DeviceCodeConfig.clientId := OutlookCalendarOAuthConfig.clientId config;
     DeviceCodeConfig.clientSecret := None;
     DeviceCodeConfig.deviceCodeUrl := fst endpoints;
     DeviceCodeConfig.tokenUrl := snd endpoints;
     DeviceCodeConfig.scopes := OUTLOOK_CALENDAR_SCOPES |}.

Section WithHost.
Context `{Host}.

Definition refreshAccessToken (config : DeviceCodeConfig.t)
    (refreshToken : string) : M TokenResponse.t :=
  record (CallFetchToken config refreshToken) ;;;
  response <- await (fetchToken config refreshToken) ;;
  if negb (HttpResponse.ok response)
  then throw ("Failed to refresh token: " ++ HttpResponse.text response)
  else
    let data := HttpResponse.json response in
    ret {| TokenResponse.accessToken := TokenData.access_token data;
           TokenResponse.refreshToken :=
             JS.or_default (TokenData.refresh_token data) refreshToken;
           TokenResponse.expiresIn := TokenData.expires_in data;
           TokenResponse.tokenType := TokenData.token_type data |}.

Definition refreshGoogleCalendarToken (config : GoogleCalendarOAuthConfig.t)
    (refreshToken : string) : M TokenResponse.t :=
  refreshAccessToken (createGoogleConfig config) refreshToken.

Definition refreshOutlookCalendarToken (config : OutlookCalendarOAuthConfig.t)
    (refreshToken : string) : M TokenResponse.t :=
  refreshAccessToken (createOutlookConfig config) refreshToken.

(** [Date.now() >= expirationTime - bufferMs]; false when [expiresAt] does
    not parse, as every comparison with [NaN] is. *)
Definition isTokenExpired (expiresAt : string) (bufferMinutes : Z) : M bool :=
  now <- Date_now ;;
  let bufferMs := bufferMinutes * 60 * 1000 in
  ret match Date_getTime expiresAt with
      | Some expirationTime => now >=? expirationTime - bufferMs
      | None => false
      end.

Definition isOutlookTokenExpired (expiresAt : string) (bufferMinutes : Z)
    : M bool :=
  now <- Date_now ;;
  let bufferMs := bufferMinutes * 60 * 1000 in
  ret match Date_getTime expiresAt with
      | Some expirationTime => now >=? expirationTime - bufferMs
      | None => false
      end.

End WithHost.

End OAuth.

(** ** Credential refresh (credentials.ts) *)

Section Credentials.
Context `{Host}.

Definition ensureFreshCredentials (account : CalendarAccount.t)
    (config : CredentialRefreshConfig.t) : M CalendarCredentials :=
  match CalendarAccount.credentials account with
  | OAuth2Credentials _ oauth_refreshToken oauth_expiresAt =>
      match CalendarAccount.provider account with
      | google =>
          expired <- OAuth.isTokenExpired oauth_expiresAt 5 ;;
          if negb expired then ret (CalendarAccount.credentials account)
          else
            let googleClientId := CredentialRefreshConfig.googleClientId config in
            let googleClientSecret :=
              CredentialRefreshConfig.googleClientSecret config in
            if negb (JS.truthy googleClientId) ||
               negb (JS.truthy googleClientSecret)
            then throw "Google OAuth configuration missing for token refresh"
            else
              token <- OAuth.refreshGoogleCalendarToken
                         (OAuth.GoogleCalendarOAuthConfig.mk
                            (default "" googleClientId)
                            (default "" googleClientSecret))
                         oauth_refreshToken ;;
              nowMs <- Date_now ;;
              let newCredentials :=
                OAuth2Credentials (TokenResponse.accessToken token)
                  (TokenResponse.refreshToken token)
                  (Date_toISOString
                     (nowMs + TokenResponse.expiresIn token * 1000)) in
              AccountsRepository.updateCredentials
                (CalendarAccount.id account) newCredentials ;;;
              ret newCredentials
      | outlook =>
          expired <- OAuth.isOutlookTokenExpired oauth_expiresAt 5 ;;
          if negb expired then ret (CalendarAccount.credentials account)
          else
            let outlookClientId :=
              JS.or_default (CredentialRefreshConfig.outlookClientId config)
                "22f6cd67-c896-49b6-b68e-89d90035e0a7" in
            token <- OAuth.refreshOutlookCalendarToken
                       (OAuth.OutlookCalendarOAuthConfig.mk outlookClientId
                          (CredentialRefreshConfig.outlookTenantId config))
                       oauth_refreshToken ;;
            nowMs <- Date_now ;;
            let newCredentials :=
              OAuth2Credentials (TokenResponse.accessToken token)
                (TokenResponse.refreshToken token)
                (Date_toISOString
                   (nowMs + TokenResponse.expiresIn token * 1000)) in
            AccountsRepository.updateCredentials
              (CalendarAccount.id account) newCredentials ;;;
            ret newCredentials
      | _ => ret (CalendarAccount.credentials account)
      end
  | _ => ret (CalendarAccount.credentials account)
  end.

End Credentials.

(** ** Google Calendar provider (providers/google.ts) *)

(** [CalendarProviderInterface], as far as the sync pass uses it. *)
Record CalendarProviderInterface := mkProvider {
  syncEvents :
    CalendarAccount.t -> CalendarCredentials -> Z -> Z -> option string ->
    M SyncResult.t }.

Module GoogleCalendarProvider.

Definition getAccessToken (credentials : CalendarCredentials) : M string :=
  match credentials with
  | OAuth2Credentials accessToken _ _ => ret accessToken
  | _ => throw "Google Calendar requires OAuth2 credentials"
  end.

(** [googleFetch]: the response, or an error when it is not [ok]. *)
Definition googleFetch {A} (fetched : Result (HttpResponse.t A))
    : Result (HttpResponse.t A) :=
  match fetched with
  | Ok response =>
      if negb (HttpResponse.ok response)
      then Throw ("Google Calendar API error (" ++ HttpResponse.status response
                  ++ "): " ++ HttpResponse.text response)
      else Ok response
  | Throw msg => Throw msg
  end.

(** The three accumulators of [syncEvents]: [allEvents], [deletedUids] and
    [newSyncToken].  What was pushed before a throw stays pushed. *)
Record Acc := mkAcc {
  allEvents : list CalendarEvent.t;
  deletedUids : list string;
  newSyncToken : option string }.

Definition is_cancelled (item : GoogleItem.t) : bool :=
  bool_decide (GoogleItem.status item = Some "cancelled").

(** [item.iCalUID || item.id]. *)
Definition item_uid (item : GoogleItem.t) : string :=
  JS.or_default (GoogleItem.iCalUID item) (GoogleItem.id item).

(** [x?.dateTime || x?.date]. *)
Definition time_of (t : option GoogleTime.t) : option string :=
  match t with
  | Some t => JS.or_else (GoogleTime.dateTime t) (GoogleTime.date t)
  | None => None
  end.

Section WithHost.
Context `{Host}.

(** [new Date(s).toISOString()], a [RangeError] on an invalid date. *)
Definition normalize (s : string) : Result string :=
  match Date_getTime s with
  | Some ms => Ok (Date_toISOString ms)
  | None => Throw "Invalid time value"
  end.

Definition listCalendars (credentials : CalendarCredentials)
    : M (list RemoteCalendar.t) :=
  token <- getAccessToken credentials ;;
  response <- await (googleFetch (fetchGoogleCalendarList token)) ;;
  ret (map (fun cal =>
              {| RemoteCalendar.id := GoogleCalendarListEntry.id cal;
                 RemoteCalendar.name :=
                   JS.or_default (GoogleCalendarListEntry.summary cal) "Calendar";
                 RemoteCalendar.color := GoogleCalendarListEntry.backgroundColor cal;
                 RemoteCalendar.readOnly :=
                   bool_decide (GoogleCalendarListEntry.accessRole cal = Some "reader")
                   || bool_decide (GoogleCalendarListEntry.accessRole cal
                                   = Some "freeBusyReader") |})
           (default [] (HttpResponse.json response))).

(** The body of [for (const item of data.items || [])] for one item. *)
Definition item_step (account : CalendarAccount.t) (calId now : string)
    (item : GoogleItem.t) (acc : Acc) : Result unit * Acc :=
  if is_cancelled item then
    let uid := item_uid item in
    if negb (String.eqb uid "")
    then (Ok tt, mkAcc (allEvents acc) (deletedUids acc ++ [uid]) (newSyncToken acc))
    else (Ok tt, acc)
  else
    let startAt := time_of (GoogleItem.start item) in
    let endAt := time_of (GoogleItem.end_ item) in
    if negb (JS.truthy startAt) then (Ok tt, acc)
    else
      match normalize (default "" startAt) with
      | Throw msg => (Throw msg, acc)
      | Ok startIso =>
          match (if JS.truthy endAt then normalize (default "" endAt)
                 else normalize (default "" startAt)) with
          | Throw msg => (Throw msg, acc)
          | Ok endIso =>
              let event :=
                {| CalendarEvent.id := "";
                   CalendarEvent.accountId := CalendarAccount.id account;
                   CalendarEvent.calendarId := calId;
                   CalendarEvent.uid := item_uid item;
                   CalendarEvent.title :=
                     JS.or_default (GoogleItem.summary item) "(No title)";
                   CalendarEvent.description := JS.or_null (GoogleItem.description item);
                   CalendarEvent.location := JS.or_null (GoogleItem.location item);
                   CalendarEvent.startAt := startIso;
                   CalendarEvent.endAt := endIso;
                   CalendarEvent.allDay :=
                     negb (JS.truthy
                             (match GoogleItem.start item with
                              | Some t => GoogleTime.dateTime t
                              | None => None
                              end));
                   CalendarEvent.recurrenceRule := None;
                   CalendarEvent.organizer := JS.or_null (GoogleItem.organizerEmail item);
                   CalendarEvent.attendees := GoogleItem.attendees item;
                   CalendarEvent.responseStatus := None;
                   CalendarEvent.remoteUrl := JS.or_null (GoogleItem.htmlLink item);
                   CalendarEvent.etag := JS.or_null (GoogleItem.etag item);
                   CalendarEvent.rawIcs := None;
                   CalendarEvent.createdAt := now;
                   CalendarEvent.updatedAt := now |} in
              (Ok tt, mkAcc (allEvents acc ++ [event]) (deletedUids acc)
                        (newSyncToken acc))
          end
      end.

Fixpoint items_loop (account : CalendarAccount.t) (calId now : string)
    (items : list GoogleItem.t) (acc : Acc) : Result unit * Acc :=
  match items with
  | [] => (Ok tt, acc)
  | item :: rest =>
      match item_step account calId now item acc with
      | (Ok _, acc') => items_loop account calId now rest acc'
      | (Throw msg, acc') => (Throw msg, acc')
      end
  end.

(** One turn of [for (const cal of calendars)]: the [try] block, whose
    [catch] skips to the next calendar. *)
Definition calendar_step (account : CalendarAccount.t) (token now : string)
    (from to : Z) (syncToken : option string) (cal : RemoteCalendar.t)
    (acc : Acc) : Acc :=
  let url :=
    if JS.truthy syncToken then BySyncToken (default "" syncToken)
    else ByRange (Date_toISOString from) (Date_toISOString to) in
  match googleFetch (fetchGoogleEvents token (RemoteCalendar.id cal) url) with
  | Throw _ => acc
  | Ok response =>
      let data := HttpResponse.json response in
      let acc1 :=
        if JS.truthy (GoogleEvents.nextSyncToken data)
        then mkAcc (allEvents acc) (deletedUids acc) (GoogleEvents.nextSyncToken data)
        else acc in
      snd (items_loop account (RemoteCalendar.id cal) now
             (default [] (GoogleEvents.items data)) acc1)
  end.

Definition syncEvents (account : CalendarAccount.t)
    (credentials : CalendarCredentials) (from to : Z)
    (syncToken : option string) : M SyncResult.t :=
  token <- getAccessToken credentials ;;
  calendars <- listCalendars credentials ;;
  nowMs <- Date_now ;;
  let acc :=
    fold_left (fun acc cal =>
                 calendar_step account token (Date_toISOString nowMs)
                   from to syncToken cal acc)
      calendars (mkAcc [] [] None) in
  ret {| SyncResult.events := allEvents acc;
         SyncResult.deletedUids :=
           if (0 <? length (deletedUids acc))%nat then Some (deletedUids acc)
           else None;
         SyncResult.syncToken := newSyncToken acc;
         SyncResult.deltaLink := None;
         SyncResult.fullSync := negb (JS.truthy syncToken) |}.

Definition provider : CalendarProviderInterface := mkProvider syncEvents.

End WithHost.

End GoogleCalendarProvider.

(** ** iCal parsing (ical/parser.ts)

    The repository holds two versions of the parser.  The first passes the
    VEVENT's own uid to every occurrence of a recurrence; the second, which
    also resolves the user's response status, gives each occurrence the uid
    [`${uid}_${start.toISOString()}`]. *)

Module Parser.

Definition strip_mailto (s : string) : string :=
  JS.replace_first "mailto:" "" s.

Definition attendee_email (a : Attendee.t) : string :=
  match Attendee.value a with
  | Some val => strip_mailto val
  | None => ""
  end.

(** The loop over [attendeeProps] that finds the user's [partstat]; it
    stops at the first attendee with the user's address. *)
Fixpoint find_response (normalizedUserEmail : string)
    (attendeeProps : list Attendee.t) : option string :=
  match attendeeProps with
  | [] => None
  | a :: rest =>
      if String.eqb (JS.toLowerCase (attendee_email a)) normalizedUserEmail
      then
        match Attendee.partstat a with
        | Some "ACCEPTED" => Some "accepted"
        | Some "DECLINED" => Some "declined"
        | Some "TENTATIVE" => Some "tentative"
        | Some "NEEDS-ACTION" => Some "needsAction"
        | _ => None
        end
      else find_response normalizedUserEmail rest
  end.

Section WithHost.
Context `{Host}.

Definition buildEvent_v1 (vevent : VEvent.t) (uid accountId calendarId : string)
    (start end_ : Z) : EventInput.t :=
  {| EventInput.accountId := accountId;
     EventInput.calendarId := calendarId;
     EventInput.uid := uid;
     EventInput.title := JS.or_default (VEvent.summary vevent) "(No title)";
     EventInput.description := JS.or_null (VEvent.description vevent);
     EventInput.location := JS.or_null (VEvent.location vevent);
     EventInput.startAt := Date_toISOString start;
     EventInput.endAt := Date_toISOString end_;
     EventInput.allDay := VEvent.startIsDate vevent;
     EventInput.recurrenceRule := VEvent.rrule vevent;
     EventInput.organizer := option_map strip_mailto (VEvent.organizer vevent);
     EventInput.attendees := map attendee_email (VEvent.attendees vevent);
     EventInput.responseStatus := None;
     EventInput.remoteUrl := None;
     EventInput.etag := None;
     EventInput.rawIcs := Some (VEvent.toString vevent) |}.

Definition buildEvent (vevent : VEvent.t) (uid accountId calendarId : string)
    (start end_ : Z) (userEmail : option string) : EventInput.t :=
  let responseStatus :=
    if JS.truthy userEmail
    then find_response (JS.toLowerCase (default "" userEmail))
           (VEvent.attendees vevent)
    else None in
  {| EventInput.accountId := accountId;
     EventInput.calendarId := calendarId;
     EventInput.uid := uid;
     EventInput.title := JS.or_default (VEvent.summary vevent) "(No title)";
     EventInput.description := JS.or_null (VEvent.description vevent);
     EventInput.location := JS.or_null (VEvent.location vevent);
     EventInput.startAt := Date_toISOString start;
     EventInput.endAt := Date_toISOString end_;
     EventInput.allDay := VEvent.startIsDate vevent;
     EventInput.recurrenceRule := VEvent.rrule vevent;
     EventInput.organizer := option_map strip_mailto (VEvent.organizer vevent);
     EventInput.attendees := map attendee_email (VEvent.attendees vevent);
     EventInput.responseStatus := responseStatus;
     EventInput.remoteUrl := None;
     EventInput.etag := None;
     EventInput.rawIcs := Some (VEvent.toString vevent) |}.

(** [while (next && count < 365) { ... next = iterator.next(); count++ }]:
    [remaining] is [365 - count], [k] the number of [next()] calls made
    so far, less one.  [emit] builds the event of an occurrence. *)
Fixpoint expand (emit : Z -> Z -> EventInput.t) (iterator : nat -> option Occurrence.t)
    (from to : Z) (remaining k : nat) : list EventInput.t :=
  match remaining with
  | O => []
  | S remaining' =>
      match iterator k with
      | None => []
      | Some occurrence =>
          let start := Occurrence.startDate occurrence in
          let end_ := Occurrence.endDate occurrence in
          if start >? to then []
          else
            (if end_ >=? from then [emit start end_] else []) ++
            expand emit iterator from to remaining' (S k)
      end
  end.

(** The events one VEVENT contributes, first version. *)
Definition vevent_events_v1 (accountId calendarId : string) (from to : Z)
    (vevent : VEvent.t) : list EventInput.t :=
  let uid := VEvent.uid vevent in
  if VEvent.isRecurring vevent then
    expand (fun start end_ =>
              buildEvent_v1 vevent uid accountId calendarId start end_)
      (VEvent.iterator vevent) from to 365 0
  else
    let start := VEvent.startDate vevent in
    let end_ := default start (VEvent.endDate vevent) in
    if (end_ >=? from) && (start <=? to)
    then [buildEvent_v1 vevent uid accountId calendarId start end_]
    else [].

(** The events one VEVENT contributes, second version. *)
Definition vevent_events (accountId calendarId : string) (from to : Z)
    (userEmail : option string) (vevent : VEvent.t) : list EventInput.t :=
  let uid := VEvent.uid vevent in
  if VEvent.isRecurring vevent then
    expand (fun start end_ =>
              let occurrenceUid := uid ++ "_" ++ Date_toISOString start in
              buildEvent vevent occurrenceUid accountId calendarId start end_
                userEmail)
      (VEvent.iterator vevent) from to 365 0
  else
    let start := VEvent.startDate vevent in
    let end_ := default start (VEvent.endDate vevent) in
    if (end_ >=? from) && (start <=? to)
    then [buildEvent vevent uid accountId calendarId start end_ userEmail]
    else [].

Definition parseICalData_v1 (icalData accountId calendarId : string)
    (from to : Z) : Result (list EventInput.t) :=
  match ICAL_parse icalData with
  | Throw msg => Throw msg
  | Ok vevents =>
      Ok (flat_map (vevent_events_v1 accountId calendarId from to) vevents)
  end.

Definition parseICalData (icalData accountId calendarId : string)
    (from to : Z) (userEmail : option string) : Result (list EventInput.t) :=
  match ICAL_parse icalData with
  | Throw msg => Throw msg
  | Ok vevents =>
      Ok (flat_map (vevent_events accountId calendarId from to userEmail) vevents)
  end.

End WithHost.

End Parser.

(** ** iCal URL provider (providers/ical.ts) and the provider registry *)

Module ICalProvider.

Section WithHost.
Context `{Host}.

Definition syncEvents (account : CalendarAccount.t)
    (_credentials : CalendarCredentials) (from to : Z)
    (_syncToken : option string) : M SyncResult.t :=
  if negb (JS.truthy (CalendarAccount.url account))
  then throw "Calendar URL is required"
  else
    response <- await (fetchICal (default "" (CalendarAccount.url account))) ;;
    if negb (HttpResponse.ok response)
    then throw ("Failed to fetch calendar: " ++ HttpResponse.status response
                ++ " " ++ HttpResponse.statusText response)
    else
      let icalData := HttpResponse.text response in
      parsed <- await (Parser.parseICalData icalData (CalendarAccount.id account)
                         "default" from to None) ;;
      nowMs <- Date_now ;;
      let now := Date_toISOString nowMs in
      let events :=
        map (fun e =>
               {| CalendarEvent.id := "";
                  CalendarEvent.accountId := EventInput.accountId e;
                  CalendarEvent.calendarId := EventInput.calendarId e;
                  CalendarEvent.uid := EventInput.uid e;
                  CalendarEvent.title := EventInput.title e;
                  CalendarEvent.description := EventInput.description e;
                  CalendarEvent.location := EventInput.location e;
                  CalendarEvent.startAt := EventInput.startAt e;
                  CalendarEvent.endAt := EventInput.endAt e;
                  CalendarEvent.allDay := EventInput.allDay e;
                  CalendarEvent.recurrenceRule := EventInput.recurrenceRule e;
                  CalendarEvent.organizer := EventInput.organizer e;
                  CalendarEvent.attendees := EventInput.attendees e;
                  CalendarEvent.responseStatus := EventInput.responseStatus e;
                  CalendarEvent.remoteUrl := EventInput.remoteUrl e;
                  CalendarEvent.etag := EventInput.etag e;
                  CalendarEvent.rawIcs := EventInput.rawIcs e;
                  CalendarEvent.createdAt := now;
                  CalendarEvent.updatedAt := now |})
            parsed in
      ret {| SyncResult.events := events;
             SyncResult.deletedUids := None;
             SyncResult.syncToken := None;
             SyncResult.deltaLink := None;
             SyncResult.fullSync := true |}.

Definition provider : CalendarProviderInterface := mkProvider syncEvents.

End WithHost.

End ICalProvider.

Module ProviderRegistry.

Section WithHost.
Context `{Host}.

(** The iCloud, Outlook and CalDAV providers answer through the host. *)
Definition remote (p : CalendarProvider) : CalendarProviderInterface :=
  mkProvider (fun account credentials from to syncToken =>
                await (remoteSyncEvents p account credentials from to syncToken)).

(** [this.providers[provider]]: every provider kind has an entry, so the
    lookup of [getRequired] does not throw. *)
Definition getRequired (p : CalendarProvider) : M CalendarProviderInterface :=
  ret match p with
      | ical => ICalProvider.provider
      | google => GoogleCalendarProvider.provider
      | icloud => remote icloud
      | outlook => remote outlook
      | caldav => remote caldav
      end.

End WithHost.

End ProviderRegistry.

(** ** Sync orchestrator (sync.ts) *)

Section Sync.
Context `{Host}.

Record SyncDeps := mkSyncDeps {
  credentialConfig : CredentialRefreshConfig.t;
  (** Whether [deps.emitEventChanged] is given. *)
  emitEventChanged : bool;
  (** Whether [deps.chat] and [deps.user] are given. *)
  chat : bool;
  user : bool }.

(** The event [syncAccountEvents] hands to [upsertByUid]; it carries no
    [responseStatus]. *)
Definition sync_input (account : CalendarAccount.t) (event : CalendarEvent.t)
    : EventInput.t :=
  {| EventInput.accountId := CalendarAccount.id account;
     EventInput.calendarId := CalendarEvent.calendarId event;
     EventInput.uid := CalendarEvent.uid event;
     EventInput.title := CalendarEvent.title event;
     EventInput.description := CalendarEvent.description event;
     EventInput.location := CalendarEvent.location event;
     EventInput.startAt := CalendarEvent.startAt event;
     EventInput.endAt := CalendarEvent.endAt event;
     EventInput.allDay := CalendarEvent.allDay event;
     EventInput.recurrenceRule := CalendarEvent.recurrenceRule event;
     EventInput.organizer := CalendarEvent.organizer event;
     EventInput.attendees := CalendarEvent.attendees event;
     EventInput.responseStatus := None;
     EventInput.remoteUrl := CalendarEvent.remoteUrl event;
     EventInput.etag := CalendarEvent.etag event;
     EventInput.rawIcs := CalendarEvent.rawIcs event |}.

(** The loop over [syncResult.deletedUids]. *)
Definition delete_uids (account : CalendarAccount.t) (uids : list string)
    : M unit :=
  for_of uids (fun uid =>
    existingEvent <- EventsRepository.getByUid (CalendarAccount.id account) uid ;;
    match existingEvent with
    | Some ev => EventsRepository.delete (CalendarEvent.id ev) ;;; ret tt
    | None => ret tt
    end).

(** What the [try] block does with the provider's answer: upsert every
    event, delete the cached events of the deleted uids, persist the
    cursor, clear the account's error. *)
Definition reconcile (account : CalendarAccount.t) (syncResult : SyncResult.t)
    : M unit :=
  for_of (SyncResult.events syncResult) (fun event =>
    EventsRepository.upsertByUid (CalendarAccount.id account)
      (sync_input account event) ;;; ret tt) ;;;
  match SyncResult.deletedUids syncResult with
  | Some uids =>
      if (0 <? length uids)%nat then delete_uids account uids else ret tt
  | None => ret tt
  end ;;;
  SyncStateRepository.upsert (CalendarAccount.id account)
    (SyncResult.syncToken syncResult) (SyncResult.deltaLink syncResult) ;;;
  AccountsRepository.updateSyncStatus (CalendarAccount.id account) None ;;;
  log "info" "Synced calendar events" (CalendarAccount.id account).

(** The [try] block of [syncAccountEvents]. *)
Definition syncAccountEvents_try (account : CalendarAccount.t) (deps : SyncDeps)
    : M unit :=
  provider <- ProviderRegistry.getRequired (CalendarAccount.provider account) ;;
  credentials <- ensureFreshCredentials account (credentialConfig deps) ;;
  now <- Date_now ;;
  let from := now - 7 * 24 * 60 * 60 * 1000 in
  let to := now + 90 * 24 * 60 * 60 * 1000 in
  syncState <- SyncStateRepository.get (CalendarAccount.id account) ;;
  let syncToken :=
    match syncState with
    | Some st => SyncStateDocument.syncToken st
    | None => None
    end in
  record (CallSyncEvents (CalendarAccount.provider account)
            (CalendarAccount.id account) syncToken) ;;;
  syncResult <- syncEvents provider account credentials from to syncToken ;;
  reconcile account syncResult.

(** [syncAccountEvents]: the [try] block, and the [catch] that logs the
    error and records its message on the account, ignoring a failure to do
    so. *)
Definition syncAccountEvents (account : CalendarAccount.t) (deps : SyncDeps)
    : M unit :=
  try_catch (syncAccountEvents_try account deps)
    (fun error =>
       log "warn" "Failed to sync calendar events" error ;;;
       try_catch
         (AccountsRepository.updateSyncStatus (CalendarAccount.id account)
            (Some error))
         (fun _ => ret tt)).

(** [deps.emitEventChanged?.()]. *)
Definition emit (deps : SyncDeps) : M unit :=
  if emitEventChanged deps then tick ;;; record CallEmitEventChanged
  else ret tt.

(** [for (const account of accounts) { if (!account.enabled) continue;
    await syncAccountEvents(...) }]. *)
Definition sync_enabled (accounts : list CalendarAccount.t) (deps : SyncDeps)
    : M unit :=
  for_of accounts (fun account =>
    if negb (CalendarAccount.enabled account) then ret tt
    else syncAccountEvents account deps).

Definition syncAllAccountsWithContext (userId : option string) (deps : SyncDeps)
    : M unit :=
  if negb (JS.truthy userId) then ret tt
  else
    try_catch
      (accounts <- AccountsRepository.list None None ;;
       sync_enabled accounts deps ;;;
       emit deps)
      (fun error => log "warn" "Failed to sync all accounts" error).

End Sync.

(** ** Reminders (reminders.ts) *)

Section Reminders.
Context `{Host}.

Definition newline : string := String (ascii_of_nat 10) EmptyString.

Definition buildReminderInstruction (event : CalendarEvent.t)
    (settings : CalendarSettings.t) (userName language : option string)
    : string :=
  let parts :=
    List.concat
      [ ["[Calendar Reminder]"; ""];
        (if JS.truthy userName then ["User: " ++ default "" userName] else []);
        ["Event: " ++ CalendarEvent.title event;
         "Start: " ++ CalendarEvent.startAt event;
         "End: " ++ CalendarEvent.endAt event];
        (if CalendarEvent.allDay event then ["All day event"] else []);
        (if JS.truthy (CalendarEvent.location event)
         then ["Location: " ++ default "" (CalendarEvent.location event)]
         else []);
        (if JS.truthy (CalendarEvent.description event)
         then ["Description: " ++ default "" (CalendarEvent.description event)]
         else []);
        (if (0 <? length (CalendarEvent.attendees event))%nat
         then ["Attendees: " ++ String.concat ", " (CalendarEvent.attendees event)]
         else []);
        (if JS.truthy language then ["Language: " ++ default "" language] else []);
        (if negb (String.eqb (CalendarSettings.instruction settings) "")
         then [""; "Instruction: " ++ CalendarSettings.instruction settings]
         else []) ] in
  String.concat newline parts.

(** [fireReminder]; its invocation is noted in the trace. *)
Definition fireReminder (event : CalendarEvent.t) (settings : CalendarSettings.t)
    (deps : SyncDeps) (userId : string) : M unit :=
  record (CallFireReminder event) ;;;
  if negb (chat deps) then ret tt
  else
    userProfile <-
      (if user deps
       then try_catch
              (profile <- await (userGetProfile userId) ;; ret (Some profile))
              (fun profileError =>
                 log "debug" "Could not fetch user profile" profileError ;;;
                 ret None)
       else ret None) ;;
    let userName :=
      match userProfile with
      | Some p => JS.or_else (UserProfile.nickname p) (UserProfile.firstName p)
      | None => None
      end in
    let language :=
      match userProfile with
      | Some p => UserProfile.language p
      | None => None
      end in
    let instruction := buildReminderInstruction event settings userName language in
    tick ;;;
    record (CallAppendInstruction instruction userId) ;;;
    log "info" "Sent calendar reminder" (CalendarEvent.id event).

End Reminders.

(** ** Background worker (worker.ts) *)

Section Worker.
Context `{Host}.

Definition POLL_INTERVAL_MS : Z := 10 * 60 * 1000.
Definition REMINDER_GRACE_MS : Z := 5 * 60 * 1000.

(** The state the reminder loop carries: the worker's [firedReminders] set
    and [earliestFuture] ([None] is [Infinity]). *)
Record LoopState := mkLoopState {
  firedReminders : gset string;
  earliestFuture : option Z }.

(** [`${event.uid}-${event.startAt}`]. *)
Definition reminder_key (event : CalendarEvent.t) : string :=
  CalendarEvent.uid event ++ "-" ++ CalendarEvent.startAt event.

(** [reminderTime.getTime()]; [None] when [event.startAt] does not parse. *)
Definition reminder_ms (settings : CalendarSettings.t) (event : CalendarEvent.t)
    : option Z :=
  match Date_getTime (CalendarEvent.startAt event) with
  | Some eventStart =>
      Some (eventStart - CalendarSettings.reminderMinutes settings * 60 * 1000)
  | None => None
  end.

(** [reminderMs <= nowMs && reminderMs > nowMs - REMINDER_GRACE_MS]. *)
Definition due (reminderMs : option Z) (nowMs : Z) : bool :=
  match reminderMs with
  | Some r => (r <=? nowMs) && (r >? nowMs - REMINDER_GRACE_MS)
  | None => false
  end.

(** The body of [for (const event of events)]. *)
Definition reminder_step (settings : CalendarSettings.t) (nowMs : Z)
    (deps : SyncDeps) (userId : string) (event : CalendarEvent.t)
    (st : LoopState) : M LoopState :=
  let reminderMs := reminder_ms settings event in
  let key := reminder_key event in
  if bool_decide (key ∈ firedReminders st) then ret st
  else if due reminderMs nowMs then
    try_catch
      (fireReminder event settings deps userId ;;;
       ret (mkLoopState ({[key]} ∪ firedReminders st) (earliestFuture st)))
      (fun err => log "warn" "Failed to fire reminder" err ;;; ret st)
  else
    match reminderMs with
    | Some r =>
        if r >? nowMs
        then ret (mkLoopState (firedReminders st)
                    (Some match earliestFuture st with
                          | Some e => Z.min e (r - nowMs)
                          | None => r - nowMs
                          end))
        else ret st
    | None => ret st
    end.

Fixpoint reminder_loop (settings : CalendarSettings.t) (nowMs : Z)
    (deps : SyncDeps) (userId : string) (events : list CalendarEvent.t)
    (st : LoopState) : M LoopState :=
  match events with
  | [] => ret st
  | event :: rest =>
      st' <- reminder_step settings nowMs deps userId event st ;;
      reminder_loop settings nowMs deps userId rest st'
  end.

(** The reminders phase of one worker iteration: the new [firedReminders]
    and [nextReminderMs]. *)
Definition reminders_phase (deps : SyncDeps) (userId : string)
    (fired : gset string) : M (gset string * Z) :=
  try_catch
    (settings <- SettingsRepository.get ;;
     now <- Date_now ;;
     let in24h := now + 24 * 60 * 60 * 1000 in
     events <- EventsRepository.getUpcoming (Date_toISOString now)
                 (Date_toISOString in24h) ;;
     st <- reminder_loop settings now deps userId events
             (mkLoopState fired None) ;;
     ret (firedReminders st,
          match earliestFuture st with
          | Some e => Z.min e POLL_INTERVAL_MS
          | None => POLL_INTERVAL_MS
          end))
    (fun err => log "warn" "Reminder processing failed" err ;;;
                ret (fired, POLL_INTERVAL_MS)).



End Worker.

(** ** Event detail modal state (event-detail-state.ts)

    The module keeps one state per user in a [Map], which iterates in
    insertion order; here the map is the list of its entries in that
    order, passed in and out. *)

Module EventDetailData.
Record t := mk {
  id : string;
  title : string;
  formattedTime : string;
  allDay : bool;
  location : option string;
  description : option string;
  accountName : string;
  calendarName : string;
  organizer : option string;
  attendeesText : string;
  responseStatus : option string }.
End EventDetailData.

Module EventDetailState.

Record t := mk {
  showModal : bool;
  event : option EventDetailData.t }.

Definition MAX_STATES : nat := 100.

Definition States := list (string * t).

(** [states.has(key)], [states.get(key)], [states.delete(key)] and
    [states.set(key, value)]: a new key goes last, a key that is set again
    keeps its place. *)
Definition has (key : string) (states : States) : bool :=
  existsb (fun entry => String.eqb (fst entry) key) states.

Definition get (key : string) (states : States) : option t :=
  option_map snd (List.find (fun entry => String.eqb (fst entry) key) states).

Definition delete (key : string) (states : States) : States :=
  List.filter (fun entry => negb (String.eqb (fst entry) key)) states.

Definition set (key : string) (value : t) (states : States) : States :=
  if has key states
  then map (fun entry => if String.eqb (fst entry) key then (key, value) else entry)
         states
  else (states ++ [(key, value)])%list.

Definition getDefaultState : t :=
  {| showModal := false; event := None |}.

(** [getEventDetailState(userId)]: the state of the user, [undefined]
    being [None], and the map afterwards. *)
Definition getEventDetailState (userId : string) (states : States)
    : option t * States :=
  let states :=
    if negb (has userId states) then
      let states :=
        if (MAX_STATES <=? length states)%nat then
          (* [states.keys().next().value] *)
          match states with
          | (oldestKey, _) :: _ =>
              if JS.truthy (Some oldestKey) then delete oldestKey states
              else states
          | [] => states
          end
        else states in
      set userId getDefaultState states
    else states in
  (get userId states, states).

Definition deleteEventDetailState (userId : string) (states : States) : States :=
  delete userId states.

Definition clearAllEventDetailStates (states : States) : States := [].

End EventDetailState.

(** ** A concrete host and worlds for the worked examples *)

Module Sample.

(** ISO dates; every remote service unreachable unless overridden. *)
Definition host : Host :=
  {| Date_getTime := IsoDate.getTime;
     Date_toISOString := IsoDate.toISOString;
     fetchToken := fun _ _ => Throw "fetch failed";
     fetchGoogleCalendarList := fun _ => Throw "fetch failed";
     fetchGoogleEvents := fun _ _ _ => Throw "fetch failed";
     remoteSyncEvents := fun _ _ _ _ _ _ => Throw "fetch failed";
     fetchICal := fun _ => Throw "fetch failed";
     ICAL_parse := fun _ => Throw "invalid ical";
     userGetProfile := fun _ => Throw "no profile" |}.

Definition world (now : Z) (events : list EventDocument.t) : World :=
  {| clock := now;
     entropy := ["a1"; "b2"; "c3"; "d4"];
     faults := [];
     accountsColl := [];
     eventsColl := events;
     syncStateColl := [];
     settingsColl := [];
     secrets := ∅;
     trace := [] |}.

(** A cached event with the given id, account, uid, start, end and
    response status. *)
Definition event (id accountId uid startAt endAt : string)
    (responseStatus : option string) : EventDocument.t :=
  {| EventDocument.id := id;
     EventDocument.accountId := accountId;
     EventDocument.calendarId := "primary";
     EventDocument.uid := uid;
     EventDocument.title := "Meeting";
     EventDocument.description := None;
     EventDocument.location := None;
     EventDocument.startAt := startAt;
     EventDocument.endAt := endAt;
     EventDocument.allDay := false;
     EventDocument.recurrenceRule := None;
     EventDocument.organizer := None;
     EventDocument.attendees := [];
     EventDocument.responseStatus := responseStatus;
     EventDocument.remoteUrl := None;
     EventDocument.etag := None;
     EventDocument.rawIcs := None;
     EventDocument.createdAt := "2024-01-01T00:00:00.000Z";
     EventDocument.updatedAt := "2024-01-01T00:00:00.000Z" |}.

Definition input (accountId uid title startAt endAt : string) : EventInput.t :=
  {| EventInput.accountId := accountId;
     EventInput.calendarId := "primary";
     EventInput.uid := uid;
     EventInput.title := title;
     EventInput.description := None;
     EventInput.location := None;
     EventInput.startAt := startAt;
     EventInput.endAt := endAt;
     EventInput.allDay := false;
     EventInput.recurrenceRule := None;
     EventInput.organizer := None;
     EventInput.attendees := [];
     EventInput.responseStatus := None;
     EventInput.remoteUrl := None;
     EventInput.etag := None;
     EventInput.rawIcs := None |}.

Definition options (accountId from to : option string) (limit offset : option nat)
    : ListEventsOptions.t :=
  ListEventsOptions.mk accountId from to limit offset.

Definition settings (reminderMinutes : Z) : CalendarSettings.t :=
  {| CalendarSettings.id := "user-settings";
     CalendarSettings.userId := "";
     CalendarSettings.reminderMinutes := reminderMinutes;
     CalendarSettings.instruction := "";
     CalendarSettings.eventInstruction := "";
     CalendarSettings.createdAt := "2024-01-01T00:00:00.000Z";
     CalendarSettings.updatedAt := "2024-01-01T00:00:00.000Z" |}.

Definition config (googleClientId googleClientSecret outlookClientId
    : option string) : CredentialRefreshConfig.t :=
  CredentialRefreshConfig.mk googleClientId googleClientSecret outlookClientId None.

(** Dependencies with a chat sink and no user API. *)
Definition deps (cfg : CredentialRefreshConfig.t) : SyncDeps :=
  mkSyncDeps cfg true true false.

Definition account (id : string) (provider : CalendarProvider)
    (url : option string) (credentials : CalendarCredentials)
    : CalendarAccount.t :=
  {| CalendarAccount.id := id;
     CalendarAccount.userId := "";
     CalendarAccount.provider := provider;
     CalendarAccount.name := id;
     CalendarAccount.url := url;
     CalendarAccount.authType :=
       match credentials with
       | NoCredentials => auth_none
       | PasswordCredentials _ _ => auth_password
       | OAuth2Credentials _ _ _ => auth_oauth2
       end;
     CalendarAccount.credentials := credentials;
     CalendarAccount.enabled := true;
     CalendarAccount.syncIntervalMs := 600000;
     CalendarAccount.lastSyncAt := None;
     CalendarAccount.lastError := None;
     CalendarAccount.createdAt := "2024-01-01T00:00:00.000Z";
     CalendarAccount.updatedAt := "2024-01-01T00:00:00.000Z";
     CalendarAccount.calendars := [] |}.

Definition account_doc (id : string) (provider : CalendarProvider)
    (url : option string) (authType : AuthType) : AccountDocument.t :=
  {| AccountDocument.id := id;
     AccountDocument.provider := provider;
     AccountDocument.name := id;
     AccountDocument.url := url;
     AccountDocument.authType := authType;
     AccountDocument.enabled := true;
     AccountDocument.syncIntervalMs := 600000;
     AccountDocument.lastSyncAt := None;
     AccountDocument.lastError := None;
     AccountDocument.createdAt := "2024-01-01T00:00:00.000Z";
     AccountDocument.updatedAt := "2024-01-01T00:00:00.000Z";
     AccountDocument.calendars := None |}.

(** A world with the given account documents and secrets. *)
Definition world_with (now : Z) (accounts : list AccountDocument.t)
    (stored : list (string * CalendarCredentials))
    (events : list EventDocument.t) : World :=
  {| clock := now;
     entropy := ["a1"; "b2"; "c3"; "d4"];
     faults := [];
     accountsColl := accounts;
     eventsColl := events;
     syncStateColl := [];
     settingsColl := [];
     secrets := list_to_map stored;
     trace := [] |}.

(** A token endpoint that grants a one-hour token. *)
Definition token_ok : HttpResponse.t TokenData.t :=
  {| HttpResponse.ok := true;
     HttpResponse.status := "200";
     HttpResponse.statusText := "OK";
     HttpResponse.text := "";
     HttpResponse.json :=
       {| TokenData.access_token := "new-access";
          TokenData.refresh_token := None;
          TokenData.expires_in := 3600;
          TokenData.token_type := "Bearer" |} |}.

Definition host_granting : Host :=
  {| Date_getTime := IsoDate.getTime;
     Date_toISOString := IsoDate.toISOString;
     fetchToken := fun _ _ => Ok token_ok;
     fetchGoogleCalendarList := fun _ => Throw "fetch failed";
     fetchGoogleEvents := fun _ _ _ => Throw "fetch failed";
     remoteSyncEvents := fun _ _ _ _ _ _ => Throw "fetch failed";
     fetchICal := fun _ => Throw "fetch failed";
     ICAL_parse := fun _ => Throw "invalid ical";
     userGetProfile := fun _ => Throw "no profile" |}.

(** A remote event, as a provider returns it. *)
Definition remote_event (uid title startAt endAt : string) : CalendarEvent.t :=
  {| CalendarEvent.id := "";
     CalendarEvent.accountId := "";
     CalendarEvent.calendarId := "work";
     CalendarEvent.uid := uid;
     CalendarEvent.title := title;
     CalendarEvent.description := None;
     CalendarEvent.location := None;
     CalendarEvent.startAt := startAt;
     CalendarEvent.endAt := endAt;
     CalendarEvent.allDay := false;
     CalendarEvent.recurrenceRule := None;
     CalendarEvent.organizer := None;
     CalendarEvent.attendees := [];
     CalendarEvent.responseStatus := None;
     CalendarEvent.remoteUrl := None;
     CalendarEvent.etag := None;
     CalendarEvent.rawIcs := None;
     CalendarEvent.createdAt := "";
     CalendarEvent.updatedAt := "" |}.

(** The scenario of the specification: the iCal feed answers HTTP 500
    and the CalDAV server returns one event. *)
Definition host_scenario : Host :=
  {| Date_getTime := IsoDate.getTime;
     Date_toISOString := IsoDate.toISOString;
     fetchToken := fun _ _ => Throw "fetch failed";
     fetchGoogleCalendarList := fun _ => Throw "fetch failed";
     fetchGoogleEvents := fun _ _ _ => Throw "fetch failed";
     remoteSyncEvents := fun p _ _ _ _ _ =>
       match p with
       | caldav =>
           Ok {| SyncResult.events :=
                   [remote_event "b-1" "Review" "2025-01-02T09:00:00.000Z"
                      "2025-01-02T10:00:00.000Z"];
                 SyncResult.deletedUids := None;
                 SyncResult.syncToken := None;
                 SyncResult.deltaLink := None;
                 SyncResult.fullSync := true |}
       | _ => Throw "fetch failed"
       end;
     fetchICal := fun _ =>
       Ok {| HttpResponse.ok := false;
             HttpResponse.status := "500";
             HttpResponse.statusText := "Internal Server Error";
             HttpResponse.text := "";
             HttpResponse.json := tt |};
     ICAL_parse := fun _ => Throw "invalid ical";
     userGetProfile := fun _ => Throw "no profile" |}.

Definition scenario_world : World :=
  world_with 1735725600000
    [account_doc "A" ical (Some "https://example.org/feed.ics") auth_none;
     account_doc "B" caldav (Some "https://dav.example.org") auth_password]
    [("account-B-credentials", PasswordCredentials "bob" "secret")] [].

(** A Google account with one calendar whose delta holds a live item
    and a cancelled one with iCalUID [X]. *)
Definition google_item (status iCalUID : option string) (id : string)
    (start : option string) : GoogleItem.t :=
  {| GoogleItem.status := status;
     GoogleItem.iCalUID := iCalUID;
     GoogleItem.id := id;
     GoogleItem.summary := Some "Planning";
     GoogleItem.description := None;
     GoogleItem.location := None;
     GoogleItem.start :=
       option_map (fun s => GoogleTime.mk (Some s) None) start;
     GoogleItem.end_ := None;
     GoogleItem.organizerEmail := None;
     GoogleItem.attendees := [];
     GoogleItem.htmlLink := None;
     GoogleItem.etag := None |}.

Definition live_item : GoogleItem.t :=
  google_item (Some "confirmed") (Some "Y") "item-y"
    (Some "2025-01-03T09:00:00.000Z").

Definition cancelled_item : GoogleItem.t :=
  google_item (Some "cancelled") (Some "X") "item-x" None.

Definition host_google : Host :=
  {| Date_getTime := IsoDate.getTime;
     Date_toISOString := IsoDate.toISOString;
     fetchToken := fun _ _ => Throw "fetch failed";
     fetchGoogleCalendarList := fun _ =>
       Ok {| HttpResponse.ok := true;
             HttpResponse.status := "200";
             HttpResponse.statusText := "OK";
             HttpResponse.text := "";
             HttpResponse.json :=
               Some [GoogleCalendarListEntry.mk "primary" (Some "Main") None
                       (Some "owner")] |};
     fetchGoogleEvents := fun _ _ _ =>
       Ok {| HttpResponse.ok := true;
             HttpResponse.status := "200";
             HttpResponse.statusText := "OK";
             HttpResponse.text := "";
             HttpResponse.json :=
               GoogleEvents.mk (Some "tok-2") (Some [live_item; cancelled_item]) |};
     remoteSyncEvents := fun _ _ _ _ _ _ => Throw "fetch failed";
     fetchICal := fun _ => Throw "fetch failed";
     ICAL_parse := fun _ => Throw "invalid ical";
     userGetProfile := fun _ => Throw "no profile" |}.

Definition google_credentials : CalendarCredentials :=
  OAuth2Credentials "access-1" "refresh-1" "2025-01-01T12:00:00.000Z".

Definition google_sync_state : SyncStateDocument.t :=
  {| SyncStateDocument.id := "sync_g";
     SyncStateDocument.accountId := "g";
     SyncStateDocument.syncToken := Some "tok-1";
     SyncStateDocument.deltaLink := None;
     SyncStateDocument.lastSyncAt := "2025-01-01T09:50:00.000Z";
     SyncStateDocument.updatedAt := "2025-01-01T09:50:00.000Z" |}.

(** The cache holds the event with uid [X] of account [g]. *)
Definition google_world : World :=
  {| clock := 1735725600000;
     entropy := ["a1"; "b2"; "c3"; "d4"];
     faults := [];
     accountsColl := [account_doc "g" google None auth_oauth2];
     eventsColl :=
       [event "evt_1" "g" "X" "2025-01-02T09:00:00.000Z"
          "2025-01-02T10:00:00.000Z" None];
     syncStateColl := [google_sync_state];
     settingsColl := [];
     secrets := {[ "account-g-credentials" := google_credentials ]};
     trace := [] |}.


(** The event starting 2025-01-01T10:00:00.000Z, which is the instant
    1735725600000. *)
Definition meeting : EventDocument.t :=
  event "e1" "acc" "u1" "2025-01-01T10:00:00.000Z" "2025-01-01T11:00:00.000Z"
    None.

End Sample.

(** * Statement-level definitions *)

(** What [EventsRepository.list] answers on a collection: the storage
    query (account filter, sort by [startAt], the first [limit + offset]
    documents), then the range and declined filters, then the slice. *)
Definition list_pure (options : ListEventsOptions.t)
    (docs : list EventDocument.t) : list CalendarEvent.t :=
  let limit := default 100%nat (ListEventsOptions.limit options) in
  let offset := default 0%nat (ListEventsOptions.offset options) in
  let found :=
    take (limit + offset)%nat
      (Storage.sort_asc EventDocument.startAt
         (List.filter (EventsRepository.list_query
                         (ListEventsOptions.accountId options)) docs)) in
  map EventsRepository.toCalendarEvent
    (JS.slice (EventsRepository.list_filter (ListEventsOptions.from options)
                 (ListEventsOptions.to options) found)
       offset (offset + limit)).

(** The listing as the specification words it: the non-declined events
    of the account overlapping the range, by ascending start, with offset
    and limit applied after the filters. *)
Definition list_spec (options : ListEventsOptions.t)
    (docs : list EventDocument.t) : list CalendarEvent.t :=
  let limit := default 100%nat (ListEventsOptions.limit options) in
  let offset := default 0%nat (ListEventsOptions.offset options) in
  map EventsRepository.toCalendarEvent
    (JS.slice
       (EventsRepository.list_filter (ListEventsOptions.from options)
          (ListEventsOptions.to options)
          (Storage.sort_asc EventDocument.startAt
             (List.filter (EventsRepository.list_query
                             (ListEventsOptions.accountId options)) docs)))
       offset (offset + limit)).

(** The non-declined events of the window, by ascending start. *)
Definition window_events (fromDate toDate : string)
    (docs : list EventDocument.t) : list CalendarEvent.t :=
  map EventsRepository.toCalendarEvent
    (EventsRepository.list_filter (Some fromDate) (Some toDate)
       (Storage.sort_asc EventDocument.startAt docs)).

(** The events [fireReminder] was invoked on, newest first. *)
Fixpoint fire_calls (tr : list Call) : list CalendarEvent.t :=
  match tr with
  | [] => []
  | CallFireReminder event :: rest => event :: fire_calls rest
  | _ :: rest => fire_calls rest
  end.

(** The token requests made, newest first. *)
Fixpoint token_calls (tr : list Call) : list (DeviceCodeConfig.t * string) :=
  match tr with
  | [] => []
  | CallFetchToken config refreshToken :: rest =>
      (config, refreshToken) :: token_calls rest
  | _ :: rest => token_calls rest
  end.

(** The accounts whose provider was asked to sync, newest first. *)
Fixpoint sync_calls (tr : list Call) : list string :=
  match tr with
  | [] => []
  | CallSyncEvents _ accountId _ :: rest => accountId :: sync_calls rest
  | _ :: rest => sync_calls rest
  end.

(** The three filters of [list] as one predicate. *)
Definition list_pred (from to : option string) (d : EventDocument.t) : bool :=
  (if JS.truthy from then JS.str_ge (EventDocument.endAt d) (default "" from)
   else true) &&
  (if JS.truthy to then JS.str_le (EventDocument.startAt d) (default "" to)
   else true) &&
  negb (bool_decide (EventDocument.responseStatus d = Some "declined")).




(** The rows of the cache under the reconciliation key
    [(accountId, uid)]. *)
Definition rows_of (accountId uid : string) (docs : list EventDocument.t)
    : list EventDocument.t :=
  List.filter (EventsRepository.by_uid accountId uid) docs.

(** The cache invariant: one document per id and one per
    [(accountId, uid)]. *)
Definition key_of (d : EventDocument.t) : string * string :=
  (EventDocument.accountId d, EventDocument.uid d).

Definition cache_ok (docs : list EventDocument.t) : Prop :=
  NoDup (map EventDocument.id docs) /\ NoDup (map key_of docs).

(** [now >= expiresAt - 5 minutes], false when [expiresAt] is no date. *)
Definition token_expired `{Host} (now : Z) (expiresAt : string) : bool :=
  match Date_getTime expiresAt with
  | Some expirationTime => now >=? expirationTime - 5 * 60 * 1000
  | None => false
  end.


(** The Google client id and secret are both configured. *)
Definition google_configured (config : CredentialRefreshConfig.t) : bool :=
  JS.truthy (CredentialRefreshConfig.googleClientId config) &&
  JS.truthy (CredentialRefreshConfig.googleClientSecret config).

(** The refresh request [ensureFreshCredentials] sends for a provider. *)
Definition refresh_request (p : CalendarProvider)
    (config : CredentialRefreshConfig.t) (refreshToken : string)
    : DeviceCodeConfig.t * string :=
  match p with
  | outlook =>
      (OAuth.createOutlookConfig
         (OAuth.OutlookCalendarOAuthConfig.mk
            (JS.or_default (CredentialRefreshConfig.outlookClientId config)
               OAuth.DEFAULT_OUTLOOK_CALENDAR_CLIENT_ID)
            (CredentialRefreshConfig.outlookTenantId config)),
       refreshToken)
  | _ =>
      (OAuth.createGoogleConfig
         (OAuth.GoogleCalendarOAuthConfig.mk
            (default "" (CredentialRefreshConfig.googleClientId config))
            (default "" (CredentialRefreshConfig.googleClientSecret config))),
       refreshToken)
  end.

(** The credentials a successful refresh produces. *)
Definition refreshed_credentials `{Host} (now : Z) (refreshToken : string)
    (data : TokenData.t) : CalendarCredentials :=
  OAuth2Credentials (TokenData.access_token data)
    (JS.or_default (TokenData.refresh_token data) refreshToken)
    (Date_toISOString (now + TokenData.expires_in data * 1000)).


(** The [for] loop of a sync pass as a fold: every enabled account is
    synced in turn, in the world the previous ones left. *)
Definition sync_each `{Host} (deps : SyncDeps) (accounts : list CalendarAccount.t)
    (w : World) : World :=
  fold_left (fun w account =>
               if CalendarAccount.enabled account
               then snd (syncAccountEvents account deps w)
               else w)
    accounts w.


(** The items of a calendar's events page, when the request succeeds. *)
Definition page_items `{Host} (token : string) (cal : RemoteCalendar.t)
    (query : GoogleQuery) : option (list GoogleItem.t) :=
  match GoogleCalendarProvider.googleFetch
          (fetchGoogleEvents token (RemoteCalendar.id cal) query) with
  | Ok response => Some (default [] (GoogleEvents.items (HttpResponse.json response)))
  | Throw _ => None
  end.



(** A computation is quiet when it invokes [fireReminder] on nothing. *)
Definition quiet {A} (c : M A) : Prop :=
  forall w, fire_calls (trace (snd (c w))) = fire_calls (trace w).


(** Events in ascending order of [startAt], as JavaScript compares the
    strings. *)
Definition starts_ascending (evs : list CalendarEvent.t) : Prop :=
  StronglySorted
    (fun a b =>
       String.leb (CalendarEvent.startAt a) (CalendarEvent.startAt b) = true)
    evs.

(** The documents of an account query: all of them when no account is
    given. *)
Definition account_docs (accountId : option string)
    (docs : list EventDocument.t) : list EventDocument.t :=
  List.filter (EventsRepository.list_query accountId) docs.

(** An invariant of the world that a computation keeps, whatever it
    answers. *)
Definition keeps {A} (I : World -> Prop) (c : M A) : Prop :=
  forall w, I w -> I (snd (c w)).

(** A part of the world that a computation leaves as it was. *)
Definition preserves {A X} (f : World -> X) (c : M A) : Prop :=
  forall w, f (snd (c w)) = f w.

(** The instructions appended to the chat, newest first. *)
Fixpoint chat_calls (tr : list Call) : list (string * string) :=
  match tr with
  | [] => []
  | CallAppendInstruction text userId :: rest => (text, userId) :: chat_calls rest
  | _ :: rest => chat_calls rest
  end.

(** How many times the event-changed notification was sent. *)
Fixpoint emit_count (tr : list Call) : nat :=
  match tr with
  | [] => 0
  | CallEmitEventChanged :: rest => S (emit_count rest)
  | _ :: rest => emit_count rest
  end.

(** What the sync of an account never touches: the settings, the chat,
    the reminders and the event-changed notification. *)
Definition outside_sync (w : World) :=
  (settingsColl w, chat_calls (trace w), fire_calls (trace w),
   emit_count (trace w), clock w).

(** What a sync pass over all accounts never touches. *)
Definition outside_pass (w : World) :=
  (settingsColl w, chat_calls (trace w), fire_calls (trace w), clock w).

(** No fault is scheduled: the host's storage, secrets, chat and
    notification calls all answer. *)
Definition host_answers (w : World) : Prop := faults w = [].

(** The documents of a cache that a sync may have written carry no
    response status: each document was in [before] or has none. *)
Definition unchanged_or_without_status (before : list EventDocument.t)
    (d : EventDocument.t) : Prop :=
  In d before \/ EventDocument.responseStatus d = None.

(** What the reminders phase never touches: the cached events, the
    accounts, the sync cursors, the secrets, the token endpoint, the
    providers and the event-changed notification. *)
Definition outside_reminders (w : World) :=
  (eventsColl w, accountsColl w, syncStateColl w, secrets w,
   token_calls (trace w), sync_calls (trace w), emit_count (trace w), clock w).

(** The options of [getUpcoming]. *)
Definition upcoming_options (fromDate toDate : string) : ListEventsOptions.t :=
  ListEventsOptions.mk None (Some fromDate) (Some toDate) (Some 200%nat) None.

(** The profile [fireReminder] personalises the instruction with: none
    without a user API or when the lookup fails. *)
Definition reminder_profile `{Host} (deps : SyncDeps) (userId : string)
    : option UserProfile.t :=
  if user deps
  then match userGetProfile userId with
       | Ok profile => Some profile
       | Throw _ => None
       end
  else None.

(** The instruction [fireReminder] appends to the chat. *)
Definition reminder_text `{Host} (deps : SyncDeps) (userId : string)
    (event : CalendarEvent.t) (settings : CalendarSettings.t) : string :=
  let profile := reminder_profile deps userId in
  buildReminderInstruction event settings
    match profile with
    | Some p => JS.or_else (UserProfile.nickname p) (UserProfile.firstName p)
    | None => None
    end
    match profile with
    | Some p => UserProfile.language p
    | None => None
    end.

(** The chat call of the next host call answers: no fault is scheduled
    for it. *)
Definition next_call_answers (w : World) : Prop :=
  match faults w with
  | Some _ :: _ => False
  | _ => True
  end.

(** The request for a calendar's events page is answered. *)
Definition reachable `{Host} (token : string) (query : GoogleQuery)
    (cal : RemoteCalendar.t) : bool :=
  match page_items token cal query with
  | Some _ => true
  | None => false
  end.

(** The [nextSyncToken] of a calendar's events page, when the request is
    answered and the token is not empty. *)
Definition page_token `{Host} (token : string) (query : GoogleQuery)
    (cal : RemoteCalendar.t) : option string :=
  match GoogleCalendarProvider.googleFetch
          (fetchGoogleEvents token (RemoteCalendar.id cal) query) with
  | Ok response => JS.or_null (GoogleEvents.nextSyncToken (HttpResponse.json response))
  | Throw _ => None
  end.

(** What the Google [syncEvents] answers when it is given these calendars
    to read. *)
Definition google_result `{Host} (account : CalendarAccount.t)
    (token now : string) (from to : Z) (syncToken : option string)
    (calendars : list RemoteCalendar.t) : SyncResult.t :=
  let acc :=
    fold_left (fun acc cal =>
                 GoogleCalendarProvider.calendar_step account token now
                   from to syncToken cal acc)
      calendars (GoogleCalendarProvider.mkAcc [] [] None) in
  {| SyncResult.events := GoogleCalendarProvider.allEvents acc;
     SyncResult.deletedUids :=
       if (0 <? length (GoogleCalendarProvider.deletedUids acc))%nat
       then Some (GoogleCalendarProvider.deletedUids acc)
       else None;
     SyncResult.syncToken := GoogleCalendarProvider.newSyncToken acc;
     SyncResult.deltaLink := None;
     SyncResult.fullSync := negb (JS.truthy syncToken) |}.

(** The credentials [loadCredentials] makes up when no secret is stored. *)
Definition blank_credentials (authType : AuthType) : CalendarCredentials :=
  match authType with
  | auth_oauth2 => OAuth2Credentials "" "" ""
  | auth_password => PasswordCredentials "" ""
  | auth_none => NoCredentials
  end.

(** The account that [AccountsRepository.get] answers for a document in a
    world: the document with the stored secret, or with blank
    credentials. *)
Definition account_of (w : World) (doc : AccountDocument.t) : CalendarAccount.t :=
  AccountsRepository.toCalendarAccount doc
    (default (blank_credentials (AccountDocument.authType doc))
       (secrets w !! AccountsRepository.getCredentialsKey (AccountDocument.id doc))).

(** The kind of a credentials value, its [type] tag. *)
Definition credentials_type (credentials : CalendarCredentials) : AuthType :=
  match credentials with
  | NoCredentials => auth_none
  | PasswordCredentials _ _ => auth_password
  | OAuth2Credentials _ _ _ => auth_oauth2
  end.

(** The state map is well formed: no user id twice, as in any [Map]. *)
Definition states_ok (states : EventDetailState.States) : Prop :=
  NoDup (map fst states).

(** * Properties *)

(** ** The ISO date functions on sample instants *)

Example iso_epoch : IsoDate.toISOString 0 = "1970-01-01T00:00:00.000Z".
Proof. reflexivity. Qed.

Example iso_sample :
  IsoDate.toISOString 1735725600000 = "2025-01-01T10:00:00.000Z" /\
  IsoDate.getTime "2025-01-01T10:00:00.000Z" = Some 1735725600000.
Proof. split; reflexivity. Qed.

(** ** The monad *)

Lemma tick_no_fault (w : World) : faults w = [] -> tick w = (Ok tt, w).
Proof. intros Hf. unfold tick. now rewrite Hf. Qed.

Lemma tick_cases (w : World) :
  (exists fs, tick w = (Ok tt, set_faults fs w)) \/
  (exists msg fs, tick w = (Throw msg, set_faults fs w)).
Proof.
  unfold tick. destruct (faults w) as [|[msg|] fs] eqn:E.
  - left. exists []. f_equal. destruct w; simpl in *; now subst.
  - right. now exists msg, fs.
  - left. now exists fs.
Qed.

Lemma bind_ok {A B} (c : M A) (k : A -> M B) w a w' :
  c w = (Ok a, w') -> bind c k w = k a w'.
Proof. intros E. unfold bind. now rewrite E. Qed.

Lemma bind_throw {A B} (c : M A) (k : A -> M B) w msg w' :
  c w = (Throw msg, w') -> bind c k w = (Throw msg, w').
Proof. intros E. unfold bind. now rewrite E. Qed.

(** ** Lists *)

Lemma In_take {A} (x : A) n (l : list A) : In x (take n l) -> In x l.
Proof.
  revert n; induction l as [|y l IH]; intros [|n]; simpl; try tauto.
  intros [->|Hin]; [now left | right; eauto].
Qed.

Lemma In_drop {A} (x : A) n (l : list A) : In x (drop n l) -> In x l.
Proof.
  revert n; induction l as [|y l IH]; intros [|n]; simpl; try tauto.
  intros Hin; right; eauto.
Qed.

Lemma In_slice {A} (x : A) (l : list A) a b : In x (JS.slice l a b) -> In x l.
Proof. unfold JS.slice. intros Hin. eapply In_drop, In_take, Hin. Qed.

(** Filtering a prefix gives a prefix of the filtered list, no longer than
    the prefix taken. *)
Lemma filter_take_prefix {A} (p : A -> bool) n (l : list A) :
  exists k, (k <= n)%nat /\ List.filter p (take n l) = take k (List.filter p l).
Proof.
  revert n; induction l as [|x l IH]; intros n.
  - exists 0%nat. split; [lia|]. now destruct n.
  - destruct n as [|n]; simpl.
    + exists 0%nat. split; [lia|]. reflexivity.
    + destruct (IH n) as (k & Hk & E). destruct (p x).
      * exists (S k). split; [lia|]. simpl. now rewrite E.
      * exists k. split; [lia|]. exact E.
Qed.

Lemma take_take_le {A} (k n : nat) (l : list A) :
  (k <= n)%nat -> take k l = take k (take n l).
Proof.
  revert n l; induction k as [|k IH]; intros n l Hle; [reflexivity|].
  destruct n as [|n]; [lia|]. destruct l as [|x l]; [reflexivity|].
  simpl. f_equal. apply IH. lia.
Qed.

(** ** EventsRepository.list *)

Lemma list_run (options : ListEventsOptions.t) (w : World) :
  EventsRepository.list options w =
  (tick ;;; ret (list_pure options (eventsColl w))) w.
Proof.
  unfold EventsRepository.list, Storage.find, list_pure, bind, ret.
  destruct (tick_cases w) as [(fs & ->)|(msg & fs & ->)]; reflexivity.
Qed.

Lemma list_ok (options : ListEventsOptions.t) (w w' : World) evs :
  EventsRepository.list options w = (Ok evs, w') ->
  evs = list_pure options (eventsColl w).
Proof.
  rewrite list_run. unfold bind, ret.
  destruct (tick_cases w) as [(fs & ->)|(msg & fs & ->)]; congruence.
Qed.

Lemma list_no_fault (options : ListEventsOptions.t) (w : World) :
  faults w = [] ->
  EventsRepository.list options w = (Ok (list_pure options (eventsColl w)), w).
Proof.
  intros Hf. rewrite list_run. unfold bind. now rewrite tick_no_fault.
Qed.

Lemma list_filter_not_declined from to docs d :
  In d (EventsRepository.list_filter from to docs) ->
  EventDocument.responseStatus d <> Some "declined".
Proof.
  unfold EventsRepository.list_filter. intros Hin.
  apply List.filter_In in Hin as [_ Hd].
  apply negb_true_iff, bool_decide_eq_false in Hd. exact Hd.
Qed.

Lemma list_pure_not_declined options docs ev :
  In ev (list_pure options docs) ->
  CalendarEvent.responseStatus ev <> Some "declined".
Proof.
  unfold list_pure. intros Hin. apply List.in_map_iff in Hin as (d & <- & Hd).
  apply In_slice in Hd. apply list_filter_not_declined in Hd. exact Hd.
Qed.

Lemma filter_all_true {A} (p : A -> bool) (l : list A) :
  (forall x, p x = true) -> List.filter p l = l.
Proof.
  intros Hp. induction l as [|x l IH]; simpl; [reflexivity|].
  now rewrite Hp, IH.
Qed.

Lemma filter_andb {A} (p q : A -> bool) (l : list A) :
  List.filter q (List.filter p l) = List.filter (fun x => p x && q x) l.
Proof.
  induction l as [|x l IH]; simpl; [reflexivity|].
  destruct (p x); simpl; [destruct (q x)|]; now rewrite IH.
Qed.

Lemma list_filter_pred from to docs :
  EventsRepository.list_filter from to docs = List.filter (list_pred from to) docs.
Proof.
  unfold EventsRepository.list_filter, list_pred.
  destruct from as [f|], to as [t|]; simpl;
    repeat match goal with
           | |- context [negb (String.eqb ?s "")] =>
               destruct (negb (String.eqb s ""))
           end;
    rewrite ?filter_andb; apply List.filter_ext; intros d; simpl;
    rewrite ?andb_true_r, ?andb_assoc; reflexivity.
Qed.

(** ** C7: declined events are not listed *)

(** C7.  Whatever the account, range, limit and offset, no event
    answered by [list] or [getUpcoming] has response status [declined]; so a
    cached event that is declined is in neither answer. *)
Theorem declined_never_listed
    (options : ListEventsOptions.t) (fromDate toDate : string)
    (w w' : World) (evs : list CalendarEvent.t) (d : EventDocument.t) :
  EventsRepository.list options w = (Ok evs, w') \/
  EventsRepository.getUpcoming fromDate toDate w = (Ok evs, w') ->
  In d (eventsColl w) ->
  EventDocument.responseStatus d = Some "declined" ->
  ~ In (EventsRepository.toCalendarEvent d) evs /\
  Forall (fun ev => CalendarEvent.responseStatus ev <> Some "declined") evs.
Proof.
  intros Hrun _ Hd.
  assert (Hall : forall ev, In ev evs ->
                   CalendarEvent.responseStatus ev <> Some "declined").
  { intros ev Hin. destruct Hrun as [Hrun|Hrun];
      apply list_ok in Hrun; subst evs;
      eapply list_pure_not_declined; eassumption. }
  split.
  - intros Hin. apply Hall in Hin. apply Hin. exact Hd.
  - apply List.Forall_forall. exact Hall.
Qed.

Lemma declined_never_listed_witness :
  let declined :=
    Sample.event "e1" "acc" "u1" "2025-01-01T10:00:00.000Z"
      "2025-01-01T11:00:00.000Z" (Some "declined") in
  let accepted :=
    Sample.event "e2" "acc" "u2" "2025-01-01T12:00:00.000Z"
      "2025-01-01T13:00:00.000Z" (Some "accepted") in
  ~ In (EventsRepository.toCalendarEvent declined)
      [EventsRepository.toCalendarEvent accepted] /\
  Forall (fun ev => CalendarEvent.responseStatus ev <> Some "declined")
    [EventsRepository.toCalendarEvent accepted].
Proof.
  intros declined accepted.
  apply (declined_never_listed
           (Sample.options (Some "acc") None None None None) "" ""
           (Sample.world 0 [declined; accepted])
           (Sample.world 0 [declined; accepted])
           [EventsRepository.toCalendarEvent accepted] declined).
  - left. vm_compute. reflexivity.
  - left. reflexivity.
  - reflexivity.
Defined.

(** ** C6: what [list] answers *)

(** C6 (at the failing input).  With one event before the range and one
    inside it, [list({ from, limit: 1 })] answers nothing: the storage query
    keeps the first [limit + offset] documents by start before the range
    filter runs.  The listing the specification describes holds the event
    inside the range. *)
Theorem list_truncates_before_filtering :
  let early :=
    Sample.event "e1" "acc" "u1" "2024-01-01T10:00:00.000Z"
      "2024-01-01T11:00:00.000Z" None in
  let late :=
    Sample.event "e2" "acc" "u2" "2024-06-01T10:00:00.000Z"
      "2024-06-01T11:00:00.000Z" None in
  let options :=
    Sample.options None (Some "2024-05-01T00:00:00.000Z") None (Some 1%nat) None in
  let w := Sample.world 0 [early; late] in
  fst (EventsRepository.list options w) = Ok [] /\
  list_spec options (eventsColl w) = [EventsRepository.toCalendarEvent late].
Proof. split; vm_compute; reflexivity. Qed.

(** What [list] answers is a part of the specified listing's underlying
    filter result: every answered event is a non-declined event of the
    account overlapping the range. *)
Lemma list_pure_sound options docs ev :
  In ev (list_pure options docs) ->
  exists d, ev = EventsRepository.toCalendarEvent d /\ In d docs /\
    EventsRepository.list_query (ListEventsOptions.accountId options) d = true /\
    list_pred (ListEventsOptions.from options) (ListEventsOptions.to options) d
      = true.
Proof.
  unfold list_pure. intros Hin. apply List.in_map_iff in Hin as (d & <- & Hd).
  apply In_slice in Hd. rewrite list_filter_pred in Hd.
  apply List.filter_In in Hd as [Hd Hp]. apply In_take in Hd.
  exists d. split; [reflexivity|]. 
  assert (Hs : forall l x, In x (Storage.sort_asc EventDocument.startAt l) -> In x l).
  { clear. induction l as [|y l IH]; simpl; [tauto|]. intros x.
    set (s := Storage.sort_asc EventDocument.startAt l) in *. clearbody s.
    revert IH. induction s as [|z s IHs]; simpl; intros IH.
    - intros [->|[]]. now left.
    - destruct (String.leb _ _); simpl.
      + intros [->|Hx]; [now left|]. right. apply IH. exact Hx.
      + intros [->|Hx]; [right; apply IH; now left|].
        apply IHs in Hx; [exact Hx|]. intros x' Hx'. apply IH. now right. }
  apply Hs in Hd. apply List.filter_In in Hd as [Hd Hq]. auto.
Qed.

(** ** Reminders *)

Ltac step_tick :=
  match goal with
  | |- context [tick ?w] =>
      let fs := fresh "fs" in
      let msg := fresh "msg" in
      destruct (tick_cases w) as [(fs & ->)|(msg & fs & ->)]
  end.

Section ReminderFacts.
Context `{Host}.

Lemma fireReminder_calls event settings deps userId w :
  fire_calls (trace (snd (fireReminder event settings deps userId w)))
  = event :: fire_calls (trace w).
Proof.
  unfold fireReminder, bind, record, log, try_catch, await, ret. simpl.
  destruct (chat deps); simpl; [|reflexivity].
  destruct (user deps); simpl.
  - destruct (userGetProfile userId); simpl; step_tick; reflexivity.
  - step_tick; reflexivity.
Qed.


(** A turn of the loop invokes [fireReminder] on its event when the key is
    not in the set and the reminder is due, and on nothing otherwise. *)
Lemma reminder_step_calls settings nowMs deps userId event st w :
  fire_calls (trace (snd (reminder_step settings nowMs deps userId event st w)))
  = ((if negb (bool_decide (reminder_key event ∈ firedReminders st))
         && due (reminder_ms settings event) nowMs
      then [event] else []) ++ fire_calls (trace w))%list.
Proof.
  unfold reminder_step.
  destruct (bool_decide (reminder_key event ∈ firedReminders st)); simpl;
    [reflexivity|].
  destruct (due (reminder_ms settings event) nowMs); simpl.
  - unfold try_catch, bind.
    pose proof (fireReminder_calls event settings deps userId w) as Hc.
    destruct (fireReminder event settings deps userId w) as [[[]|msg] w1];
      simpl in *; exact Hc.
  - destruct (reminder_ms settings event) as [r|]; [|reflexivity].
    destruct (r >? nowMs); reflexivity.
Qed.

(** A turn never throws, and only adds to the set: the key of its event,
    when [fireReminder] returned. *)
Lemma reminder_step_state settings nowMs deps userId event st w :
  exists st', fst (reminder_step settings nowMs deps userId event st w) = Ok st' /\
    (firedReminders st' = firedReminders st \/
     firedReminders st' = {[reminder_key event]} ∪ firedReminders st).
Proof.
  unfold reminder_step.
  destruct (bool_decide (reminder_key event ∈ firedReminders st)); simpl;
    [exists st; auto|].
  destruct (due (reminder_ms settings event) nowMs); simpl.
  - unfold try_catch, bind.
    destruct (fireReminder event settings deps userId w) as [[[]|msg] w1];
      simpl; eexists; split; try reflexivity; simpl; auto.
  - destruct (reminder_ms settings event) as [r|]; [|exists st; auto].
    destruct (r >? nowMs); eexists; split; try reflexivity; simpl; auto.
Qed.



End ReminderFacts.


Section ReminderLoop.
Context `{Host}.


(** One pass of the loop: it does not throw, the set only grows, and
    [fireReminder] is invoked only on due events of the list whose key was
    not in the set when the pass began. *)
Lemma reminder_loop_calls settings nowMs deps userId events st w :
  exists st' w' news,
    reminder_loop settings nowMs deps userId events st w = (Ok st', w') /\
    fire_calls (trace w') = (news ++ fire_calls (trace w))%list /\
    firedReminders st ⊆ firedReminders st' /\
    Forall (fun ev => In ev events /\
                      due (reminder_ms settings ev) nowMs = true /\
                      (reminder_key ev ∉ firedReminders st)) news.
Proof.
  revert st w. induction events as [|event rest IH]; intros st w; simpl.
  - exists st, w, []. repeat split; auto. 
  - unfold bind.
    pose proof (reminder_step_calls settings nowMs deps userId event st w) as Hc.
    destruct (reminder_step_state settings nowMs deps userId event st w)
      as (st1 & Hst & Hfired).
    destruct (reminder_step settings nowMs deps userId event st w)
      as [r w1] eqn:Hstep. simpl in Hst, Hc. subst r.
    destruct (IH st1 w1) as (st' & w' & news & Hrun & Hcalls & Hsub & Hall).
    assert (Hsub1 : firedReminders st ⊆ firedReminders st1).
    { destruct Hfired as [E|E]; rewrite E;
        [reflexivity | apply union_subseteq_r]. }
    exists st', w'. rewrite Hrun, Hcalls, Hc.
    eexists. split; [reflexivity|]. split; [apply List.app_assoc|].
    split; [transitivity (firedReminders st1); assumption|].
    apply List.Forall_app. split.
    + eapply List.Forall_impl; [|exact Hall]. simpl.
      intros ev (Hin & Hd & Hk). split; [now right|]. split; [exact Hd|].
      intros Hx. apply Hk. apply Hsub1. exact Hx.
    + destruct (bool_decide (reminder_key event ∈ firedReminders st)) eqn:Hk;
        simpl; [constructor|].
      destruct (due (reminder_ms settings event) nowMs) eqn:Hd; simpl;
        constructor; [|constructor].
      apply bool_decide_eq_false in Hk. auto.
Qed.

End ReminderLoop.

(** ** C10: the reminder scan is bounded by the 200 events of [getUpcoming] *)

Lemma getUpcoming_pure fromDate toDate docs :
  exists k, (k <= 200)%nat /\
    list_pure (ListEventsOptions.mk None (Some fromDate) (Some toDate)
                 (Some 200%nat) None) docs
    = take k (window_events fromDate toDate docs).
Proof.
  unfold list_pure, window_events, JS.slice. simpl.
  rewrite (filter_all_true (EventsRepository.list_query None)) by reflexivity.
  rewrite !list_filter_pred.
  destruct (filter_take_prefix (list_pred (Some fromDate) (Some toDate)) 200
              (Storage.sort_asc EventDocument.startAt docs)) as (k & Hk & E).
  exists k. split; [exact Hk|]. rewrite E.
  rewrite drop_0, take_take, Nat.min_r by lia.
  symmetry. apply List.firstn_map.
Qed.

Section UpcomingFacts.
Context `{Host}.

Lemma settings_get_frame w :
  let w' := snd (SettingsRepository.get w) in
  eventsColl w' = eventsColl w /\ trace w' = trace w /\ clock w' = clock w.
Proof.
  unfold SettingsRepository.get, Storage.get, Storage.put, bind, ret, Date_now.
  step_tick; simpl; [|auto].
  destruct (Storage.get_doc _ _ _); simpl; [auto|].
  step_tick; simpl; auto.
Qed.

(** A reminders phase invokes [fireReminder] only on events among the
    first 200 of the window. *)
Lemma reminders_phase_calls deps userId fired w :
  exists news,
    fire_calls (trace (snd (reminders_phase deps userId fired w)))
    = (news ++ fire_calls (trace w))%list /\
    Forall (fun ev =>
              In ev (take 200
                       (window_events (Date_toISOString (clock w))
                          (Date_toISOString (clock w + 24 * 60 * 60 * 1000))
                          (eventsColl w))))
      news.
Proof.
  unfold reminders_phase, try_catch, bind, Date_now, log, record.
  destruct (settings_get_frame w) as (Hev & Htr & Hclk).
  destruct (SettingsRepository.get w) as [[settings|msg] w1]; simpl in *;
    [|exists []; rewrite Htr; split; [reflexivity|constructor]].
  unfold EventsRepository.getUpcoming. rewrite list_run. unfold bind, ret.
  destruct (tick_cases w1) as [(fs & ->)|(msg & fs & ->)]; simpl;
    [|exists []; rewrite Htr; split; [reflexivity|constructor]].
  destruct (reminder_loop_calls settings (clock w1) deps userId
              (list_pure
                 (ListEventsOptions.mk None (Some (Date_toISOString (clock w1)))
                    (Some (Date_toISOString (clock w1 + 24 * 60 * 60 * 1000)))
                    (Some 200%nat) None)
                 (eventsColl w1))
              (mkLoopState fired None) (set_faults fs w1))
    as (st' & w' & news & Hrun & Hcalls & _ & Hall).
  rewrite Hrun. simpl. exists news. rewrite Hcalls. simpl. rewrite Htr.
  split; [reflexivity|].
  eapply List.Forall_impl; [|exact Hall]. simpl. intros ev (Hin & _).
  destruct (getUpcoming_pure (Date_toISOString (clock w1))
              (Date_toISOString (clock w1 + 24 * 60 * 60 * 1000))
              (eventsColl w1)) as (k & Hk & E).
  rewrite E in Hin. rewrite Hev, Hclk in Hin.
  rewrite (take_take_le k 200) in Hin by exact Hk.
  eapply In_take. exact Hin.
Qed.

End UpcomingFacts.

(** C10.  [getUpcoming] is [list] with limit 200 and offset 0; what it
    answers has at most 200 events and is an initial part of the
    non-declined events of the window in ascending start order; and a
    reminders phase invokes [fireReminder] only on events among the first
    200 of that order, so an event beyond them gets no reminder in that
    pass. *)
Theorem getUpcoming_at_most_200 `{Host} (fromDate toDate : string)
    (deps : SyncDeps) (userId : string) (fired : gset string) (w : World) :
  EventsRepository.getUpcoming fromDate toDate w =
    EventsRepository.list
      (ListEventsOptions.mk None (Some fromDate) (Some toDate) (Some 200%nat) None)
      w /\
  match fst (EventsRepository.getUpcoming fromDate toDate w) with
  | Ok evs =>
      (length evs <= 200)%nat /\
      exists k, (k <= 200)%nat /\
        evs = take k (window_events fromDate toDate (eventsColl w))
  | Throw _ => True
  end /\
  exists news,
    fire_calls (trace (snd (reminders_phase deps userId fired w)))
    = (news ++ fire_calls (trace w))%list /\
    Forall (fun ev =>
              In ev (take 200
                       (window_events (Date_toISOString (clock w))
                          (Date_toISOString (clock w + 24 * 60 * 60 * 1000))
                          (eventsColl w))))
      news.
Proof.
  split; [reflexivity|]. split; [|apply reminders_phase_calls].
  unfold EventsRepository.getUpcoming. rewrite list_run. unfold bind, ret.
  destruct (tick_cases w) as [(fs & ->)|(msg & fs & ->)]; simpl; [|exact I].
  destruct (getUpcoming_pure fromDate toDate (eventsColl w)) as (k & Hk & E).
  rewrite E. split; [|exists k; auto].
  rewrite List.length_firstn. lia.
Qed.

(** A sample pass: of 3 cached events in the window, the declined one is
    not examined and the due one fires. *)
Example reminders_phase_sample :
  let due_ev := Sample.meeting in
  let declined :=
    Sample.event "e2" "acc" "u2" "2025-01-01T10:00:00.000Z"
      "2025-01-01T11:00:00.000Z" (Some "declined") in
  let later :=
    Sample.event "e3" "acc" "u3" "2025-01-01T15:00:00.000Z"
      "2025-01-01T16:00:00.000Z" None in
  let w := Sample.world (1735725600000 - 15 * 60000) [later; declined; due_ev] in
  let r := reminders_phase (H := Sample.host)
             (Sample.deps (Sample.config None None None)) "user" ∅ w in
  fst r = Ok ({["u1-2025-01-01T10:00:00.000Z"]}, 600000) /\
  fire_calls (trace (snd r)) = [EventsRepository.toCalendarEvent due_ev].
Proof. vm_compute. split; reflexivity. Qed.

(** ** Storage: [put] and [find] on a collection *)

Section PutFacts.
Context {D : Type} (doc_id : D -> string).

Lemma find_put_existing (p : D -> bool) (docs : list D) (d0 doc : D) :
  List.find p docs = Some d0 -> p doc = true ->
  List.find p (Storage.put_doc doc_id (doc_id d0) doc docs) = Some doc.
Proof.
  intros Hfind Hp. unfold Storage.put_doc.
  assert (Hex : existsb (Storage.has_id doc_id (doc_id d0)) docs = true).
  { apply List.existsb_exists. exists d0. split.
    - apply List.find_some in Hfind. tauto.
    - unfold Storage.has_id. apply String.eqb_refl. }
  rewrite Hex. clear Hex.
  induction docs as [|x docs IH]; simpl in *; [discriminate|].
  destruct (p x) eqn:Hx.
  - injection Hfind as ->.
    assert (E : Storage.has_id doc_id (doc_id d0) d0 = true)
      by apply String.eqb_refl.
    rewrite E. now rewrite Hp.
  - destruct (Storage.has_id doc_id (doc_id d0) x); simpl.
    + now rewrite Hp.
    + rewrite Hx. apply IH. exact Hfind.
Qed.

Lemma find_put_new (p : D -> bool) (docs : list D) (id : string) (doc : D) :
  List.find p docs = None -> p doc = true ->
  List.find p (Storage.put_doc doc_id id doc docs) = Some doc.
Proof.
  intros Hfind Hp. unfold Storage.put_doc.
  destruct (existsb (Storage.has_id doc_id id) docs) eqn:Hex.
  - induction docs as [|x docs IH]; simpl in *; [discriminate|].
    destruct (p x) eqn:Hx; [discriminate|].
    destruct (Storage.has_id doc_id id x); simpl in *.
    + now rewrite Hp.
    + rewrite Hx. apply IH; assumption.
  - clear Hex. induction docs as [|x docs IH]; simpl in *.
    + now rewrite Hp.
    + destruct (p x); [discriminate|]. apply IH. exact Hfind.
Qed.

Lemma filter_replace_none (p : D -> bool) (docs : list D) (id : string) (doc : D) :
  (forall y, In y docs -> doc_id y <> id) ->
  (forall y, In y docs -> p y = true -> doc_id y = id) ->
  List.filter p
    (map (fun d => if Storage.has_id doc_id id d then doc else d) docs) = [].
Proof.
  induction docs as [|y docs IH]; intros Hne Hall; simpl; [reflexivity|].
  assert (Hy : doc_id y <> id) by (apply Hne; now left).
  change (Storage.has_id doc_id id y) with (String.eqb (doc_id y) id).
  destruct (String.eqb (doc_id y) id) eqn:Hyid;
    [apply String.eqb_eq in Hyid; contradiction|].
  destruct (p y) eqn:Hpy.
  - exfalso. apply Hy. apply Hall; [now left | exact Hpy].
  - apply IH.
    + intros z Hz. apply Hne. now right.
    + intros z Hz. apply Hall. now right.
Qed.

(** With one document per id, after [put] under [id] the documents
    satisfying [p] are the one put, provided it satisfies [p] and every
    earlier such document had that id. *)
Lemma filter_put (p : D -> bool) (docs : list D) (id : string) (doc : D) :
  NoDup (map doc_id docs) ->
  (forall x, In x docs -> p x = true -> doc_id x = id) ->
  p doc = true ->
  List.filter p (Storage.put_doc doc_id id doc docs) = [doc].
Proof.
  intros Hnd Hall Hp. unfold Storage.put_doc.
  destruct (existsb (Storage.has_id doc_id id) docs) eqn:Hex.
  - induction docs as [|x docs IH]; simpl in *; [discriminate|].
    apply NoDup_cons in Hnd as [Hnotin Hnd'].
    change (Storage.has_id doc_id id x) with (String.eqb (doc_id x) id) in *.
    destruct (String.eqb (doc_id x) id) eqn:Hid; simpl in *.
    + apply String.eqb_eq in Hid. rewrite Hp. f_equal.
      apply filter_replace_none.
      * intros y Hy E. apply Hnotin. apply list_elem_of_In.
        apply List.in_map_iff. exists y. split; [congruence | exact Hy].
      * intros y Hy. apply Hall. now right.
    + destruct (p x) eqn:Hpx.
      * exfalso. apply String.eqb_neq in Hid. apply Hid.
        apply Hall; [now left | exact Hpx].
      * apply IH; auto.
  - rewrite List.filter_app. simpl. rewrite Hp.
    assert (Hnone : List.filter p docs = []).
    { clear Hnd. induction docs as [|x docs IH]; simpl in *; [reflexivity|].
      apply orb_false_iff in Hex as [Hx Hex].
      destruct (p x) eqn:Hpx.
      - exfalso. unfold Storage.has_id in Hx. apply String.eqb_neq in Hx.
        apply Hx. apply Hall; [now left | exact Hpx].
      - apply IH; auto. }
    now rewrite Hnone.
Qed.

Lemma put_ids (docs : list D) (id : string) (doc : D) :
  doc_id doc = id ->
  NoDup (map doc_id docs) ->
  NoDup (map doc_id (Storage.put_doc doc_id id doc docs)).
Proof.
  intros Hid Hnd. unfold Storage.put_doc.
  destruct (existsb (Storage.has_id doc_id id) docs) eqn:Hex.
  - assert (E : map doc_id
                  (map (fun d => if Storage.has_id doc_id id d then doc else d) docs)
                = map doc_id docs).
    { rewrite List.map_map. apply List.map_ext. intros d.
      unfold Storage.has_id. destruct (String.eqb (doc_id d) id) eqn:Hd;
        [apply String.eqb_eq in Hd; congruence | reflexivity]. }
    now rewrite E.
  - rewrite List.map_app. simpl. apply NoDup_app. split; [exact Hnd|]. split.
    + intros x Hx Hx'. apply list_elem_of_In in Hx.
      apply list_elem_of_In in Hx'. destruct Hx' as [<-|[]].
      apply List.in_map_iff in Hx as (d & Hd & Hin).
      assert (Ht : existsb (Storage.has_id doc_id id) docs = true).
      { apply List.existsb_exists. exists d. split; [exact Hin|].
        unfold Storage.has_id. apply String.eqb_eq. congruence. }
      congruence.
    + apply NoDup_singleton.
Qed.

End PutFacts.

Section PutKeys.
Context {D K : Type} (doc_id : D -> string) (key : D -> K).

Lemma replace_none (docs : list D) (id : string) (doc : D) :
  (forall y, In y docs -> doc_id y <> id) ->
  map (fun d => if Storage.has_id doc_id id d then doc else d) docs = docs.
Proof.
  induction docs as [|y docs IH]; intros Hne; simpl; [reflexivity|].
  change (Storage.has_id doc_id id y) with (String.eqb (doc_id y) id).
  destruct (String.eqb (doc_id y) id) eqn:Hy.
  - apply String.eqb_eq in Hy. exfalso. eapply Hne; [now left | exact Hy].
  - f_equal. apply IH. intros z Hz. apply Hne. now right.
Qed.

Lemma replace_keys (docs : list D) (id : string) (doc : D) :
  NoDup (map doc_id docs) -> NoDup (map key docs) ->
  (forall x, In x docs -> key x = key doc -> doc_id x = id) ->
  NoDup (map key
           (map (fun d => if Storage.has_id doc_id id d then doc else d) docs)).
Proof.
  induction docs as [|x docs IH]; intros Hids Hkeys Hall; simpl;
    [constructor|].
  simpl in Hids, Hkeys.
  apply NoDup_cons in Hids as [Hid_x Hids]. apply NoDup_cons in Hkeys as [Hkey_x Hkeys].
  rewrite list_elem_of_In in Hid_x. rewrite list_elem_of_In in Hkey_x.
  change (Storage.has_id doc_id id x) with (String.eqb (doc_id x) id).
  destruct (String.eqb (doc_id x) id) eqn:Hx.
  - apply String.eqb_eq in Hx.
    assert (Hne : forall y, In y docs -> doc_id y <> id).
    { intros y Hy E. apply Hid_x. apply List.in_map_iff. exists y.
      split; [congruence | exact Hy]. }
    rewrite replace_none by exact Hne.
    apply NoDup_cons. split; [|exact Hkeys].
    rewrite list_elem_of_In. intros Hin.
    apply List.in_map_iff in Hin as (y & Hky & Hy).
    apply (Hne y Hy). apply Hall; [now right | exact Hky].
  - apply String.eqb_neq in Hx.
    apply NoDup_cons. split.
    + rewrite list_elem_of_In. intros Hin.
      apply List.in_map_iff in Hin as (z & Hkz & Hz).
      apply List.in_map_iff in Hz as (y & Hzy & Hy).
      destruct (Storage.has_id doc_id id y); subst z.
      * apply Hx. apply Hall; [now left | congruence].
      * apply Hkey_x. apply List.in_map_iff. exists y. auto.
    + apply IH; auto. intros y Hy. apply Hall. now right.
Qed.

Lemma put_keys (docs : list D) (id : string) (doc : D) :
  NoDup (map doc_id docs) -> NoDup (map key docs) ->
  (forall x, In x docs -> key x = key doc -> doc_id x = id) ->
  NoDup (map key (Storage.put_doc doc_id id doc docs)).
Proof.
  intros Hids Hkeys Hall. unfold Storage.put_doc.
  destruct (existsb (Storage.has_id doc_id id) docs) eqn:Hex.
  - apply replace_keys; assumption.
  - rewrite List.map_app. simpl. apply NoDup_app. split; [exact Hkeys|]. split.
    + intros k Hk Hk'. rewrite list_elem_of_In in Hk. rewrite list_elem_of_In in Hk'.
      destruct Hk' as [<-|[]].
      apply List.in_map_iff in Hk as (y & Hky & Hy).
      assert (Ht : existsb (Storage.has_id doc_id id) docs = true).
      { apply List.existsb_exists. exists y. split; [exact Hy|].
        apply String.eqb_eq. apply Hall; [exact Hy | exact Hky]. }
      congruence.
    + apply NoDup_singleton.
Qed.

End PutKeys.

Lemma NoDup_map_inj {D K} (key : D -> K) (docs : list D) (x y : D) :
  NoDup (map key docs) -> In x docs -> In y docs -> key x = key y -> x = y.
Proof.
  induction docs as [|z docs IH]; simpl; [tauto|].
  intros Hnd Hx Hy E. apply NoDup_cons in Hnd as [Hz Hnd].
  rewrite list_elem_of_In in Hz.
  destruct Hx as [->|Hx], Hy as [->|Hy]; auto.
  - exfalso. apply Hz. apply List.in_map_iff. exists y. auto.
  - exfalso. apply Hz. apply List.in_map_iff. exists x. auto.
Qed.


(** ** EventsRepository.upsertByUid *)

Lemma by_uid_key accountId uid d :
  EventsRepository.by_uid accountId uid d = true <-> key_of d = (accountId, uid).
Proof.
  unfold EventsRepository.by_uid, key_of.
  rewrite andb_true_iff, !String.eqb_eq. split.
  - intros [-> ->]. reflexivity.
  - intros E. injection E as -> ->. auto.
Qed.

Section UpsertFacts.
Context `{Host}.

(** What a returning [upsertByUid] did: it wrote, under the id of the
    row found by [(accountId, uid)] or under a new id, the document made
    of the input's fields. *)
Lemma upsert_ok accountId event w r w' :
  EventsRepository.upsertByUid accountId event w = (Ok r, w') ->
  exists id created,
    let now := Date_toISOString (clock w) in
    let doc := EventsRepository.mkDoc id accountId event created now in
    match List.find (EventsRepository.by_uid accountId (EventInput.uid event))
            (eventsColl w) with
    | Some d0 =>
        id = EventDocument.id d0 /\ created = EventDocument.createdAt d0
    | None => created = now
    end /\
    r = EventsRepository.toCalendarEvent doc /\
    eventsColl w' = Storage.put_doc EventDocument.id id doc (eventsColl w) /\
    faults w' = drop 2 (faults w) /\
    accountsColl w' = accountsColl w /\ syncStateColl w' = syncStateColl w /\
    clock w' = clock w /\ trace w' = trace w.
Proof.
  unfold EventsRepository.upsertByUid, EventsRepository.getByUid,
    Storage.findOne, Storage.put, generateId, bind, ret, Date_now.
  unfold tick.
  destruct (faults w) as [|[m1|] [|[m2|] fs]] eqn:Hf; simpl;
    try discriminate;
    destruct (List.find _ (eventsColl w)) as [d0|] eqn:Hfind; simpl;
    rewrite ?Hf; simpl; try discriminate;
    try (destruct (entropy w) as [|e es] eqn:He; simpl; rewrite ?Hf; simpl);
    try discriminate;
    intros E; injection E as <- <-; simpl;
    do 2 eexists; (split; [first [split; reflexivity | reflexivity]|]);
    rewrite ?Hf; auto 10.
Qed.


End UpsertFacts.

Section UpsertTheorems.
Context `{Host}.

Lemma mkDoc_by_uid id accountId event created now :
  EventsRepository.by_uid accountId (EventInput.uid event)
    (EventsRepository.mkDoc id accountId event created now) = true.
Proof.
  unfold EventsRepository.by_uid. simpl. now rewrite !String.eqb_refl.
Qed.

(** After a returning [upsertByUid] the first row found under the key is
    the document just written. *)
Lemma upsert_then_find accountId event w r w' :
  EventsRepository.upsertByUid accountId event w = (Ok r, w') ->
  exists doc,
    r = EventsRepository.toCalendarEvent doc /\
    List.find (EventsRepository.by_uid accountId (EventInput.uid event))
      (eventsColl w') = Some doc /\
    EventDocument.updatedAt doc = Date_toISOString (clock w).
Proof.
  intros Hrun. apply upsert_ok in Hrun as (id & created & Hm & -> & Hev & _).
  eexists. split; [reflexivity|]. split; [|reflexivity]. rewrite Hev.
  destruct (List.find _ (eventsColl w)) as [d0|] eqn:Hfind.
  - destruct Hm as [-> ->].
    apply (find_put_existing EventDocument.id); [exact Hfind|].
    apply mkDoc_by_uid.
  - apply (find_put_new EventDocument.id); [exact Hfind|].
    apply mkDoc_by_uid.
Qed.

(** [upsertByUid] keeps the cache invariant and leaves one row under the
    key, the document written. *)
Lemma upsert_cache_ok accountId event w r w' :
  cache_ok (eventsColl w) ->
  EventsRepository.upsertByUid accountId event w = (Ok r, w') ->
  cache_ok (eventsColl w') /\
  exists doc, r = EventsRepository.toCalendarEvent doc /\
    rows_of accountId (EventInput.uid event) (eventsColl w') = [doc].
Proof.
  intros [Hids Hkeys] Hrun.
  apply upsert_ok in Hrun as (id & created & Hm & -> & Hev & _).
  set (doc := EventsRepository.mkDoc id accountId event created
                (Date_toISOString (clock w))) in *.
  assert (Hall : forall x, In x (eventsColl w) ->
                   key_of x = key_of doc -> EventDocument.id x = id).
  { intros x Hx Hk.
    assert (Hpx : EventsRepository.by_uid accountId (EventInput.uid event) x
                  = true) by (apply by_uid_key; exact Hk).
    destruct (List.find _ (eventsColl w)) as [d0|] eqn:Hfind.
    - destruct Hm as [-> _]. apply List.find_some in Hfind as [Hd0 Hp0].
      apply by_uid_key in Hp0.
      f_equal. apply (NoDup_map_inj key_of (eventsColl w)); auto.
      rewrite Hk, Hp0. reflexivity.
    - eapply List.find_none in Hfind; [|exact Hx]. congruence. }
  rewrite Hev. split; [split|].
  - apply put_ids; [reflexivity | exact Hids].
  - apply put_keys; assumption.
  - exists doc. split; [reflexivity|]. unfold rows_of.
    apply filter_put; [exact Hids | | apply mkDoc_by_uid].
    intros x Hx Hp. apply Hall; [exact Hx|]. apply by_uid_key in Hp.
    rewrite Hp. reflexivity.
Qed.

End UpsertTheorems.

(** ** C2: upserting the same key twice *)

(** C2.  When [upsertByUid] is called twice with the same account
    and uid, the cache untouched in between, the second answer has the id
    and [createdAt] of the first and every other field from the second
    input, with [updatedAt] the instant of the second call; and on a cache
    with one row per id and per key, exactly one row is left under
    [(accountId, uid)]: the document of the second answer. *)
Theorem upsert_twice_converges `{Host}
    (accountId : string) (e1 e2 : EventInput.t)
    (w0 w1 w1' w2 : World) (r1 r2 : CalendarEvent.t) :
  EventInput.uid e1 = EventInput.uid e2 ->
  EventsRepository.upsertByUid accountId e1 w0 = (Ok r1, w1) ->
  eventsColl w1' = eventsColl w1 ->
  EventsRepository.upsertByUid accountId e2 w1' = (Ok r2, w2) ->
  let doc2 :=
    EventsRepository.mkDoc (CalendarEvent.id r1) accountId e2
      (CalendarEvent.createdAt r1) (Date_toISOString (clock w1')) in
  r2 = EventsRepository.toCalendarEvent doc2 /\
  CalendarEvent.id r2 = CalendarEvent.id r1 /\
  CalendarEvent.createdAt r2 = CalendarEvent.createdAt r1 /\
  CalendarEvent.title r2 = EventInput.title e2 /\
  CalendarEvent.startAt r2 = EventInput.startAt e2 /\
  CalendarEvent.endAt r2 = EventInput.endAt e2 /\
  CalendarEvent.updatedAt r2 = Date_toISOString (clock w1') /\
  (cache_ok (eventsColl w0) ->
   rows_of accountId (EventInput.uid e2) (eventsColl w2) = [doc2]).
Proof.
  intros Huid Hrun1 Hsame Hrun2 doc2.
  assert (Hr2 : r2 = EventsRepository.toCalendarEvent doc2).
  { destruct (upsert_then_find _ _ _ _ _ Hrun1) as (doc1 & -> & Hfind1 & _).
    apply upsert_ok in Hrun2 as (id & created & Hm & -> & _).
    rewrite Hsame, <- Huid, Hfind1 in Hm. destruct Hm as [-> ->].
    reflexivity. }
  split; [exact Hr2|]. rewrite Hr2. repeat (split; [reflexivity|]).
  intros Hok.
  destruct (upsert_cache_ok _ _ _ _ _ Hok Hrun1) as (Hok1 & _).
  rewrite <- Hsame in Hok1.
  destruct (upsert_cache_ok _ _ _ _ _ Hok1 Hrun2) as (_ & doc & Hdoc & Hrows).
  rewrite Hrows. f_equal. rewrite Hr2 in Hdoc.
  destruct doc, doc2; simpl in Hdoc; injection Hdoc; intros; subst; reflexivity.
Qed.

Lemma upsert_twice_converges_witness :
  let e1 := Sample.input "acc" "u1" "Standup"
              "2025-01-01T10:00:00.000Z" "2025-01-01T10:15:00.000Z" in
  let e2 := Sample.input "acc" "u1" "Standup (moved)"
              "2025-01-01T11:00:00.000Z" "2025-01-01T11:15:00.000Z" in
  let w0 := Sample.world 1735689600000 [] in
  let r1w1 := EventsRepository.upsertByUid (H := Sample.host) "acc" e1 w0 in
  let w1' := mkWorld 1735693200000 (entropy (snd r1w1)) [] (accountsColl (snd r1w1))
               (eventsColl (snd r1w1)) [] [] ∅ [] in
  let r2w2 := EventsRepository.upsertByUid (H := Sample.host) "acc" e2 w1' in
  exists r1 r2,
    fst r1w1 = Ok r1 /\ fst r2w2 = Ok r2 /\
    CalendarEvent.id r2 = "evt_a1" /\
    CalendarEvent.createdAt r2 = "2025-01-01T00:00:00.000Z" /\
    CalendarEvent.title r2 = "Standup (moved)" /\
    CalendarEvent.updatedAt r2 = "2025-01-01T01:00:00.000Z" /\
    length (rows_of "acc" "u1" (eventsColl (snd r2w2))) = 1%nat.
Proof.
  intros e1 e2 w0 r1w1 w1' r2w2.
  destruct r1w1 as [[r1|] w1] eqn:E1;
    [|exfalso; revert E1; vm_compute; discriminate].
  destruct r2w2 as [[r2|] w2] eqn:E2;
    [|exfalso; revert E1 E2; vm_compute; intros E1; injection E1 as <- <-;
      vm_compute; discriminate].
  exists r1, r2. split; [reflexivity|]. split; [reflexivity|].
  pose proof (upsert_twice_converges (H := Sample.host) "acc" e1 e2 w0 w1 w1' w2
                r1 r2 eq_refl E1 eq_refl E2) as (Hr2 & Hid & Hc & Ht & _ & _ & Hu & Hrows).
  assert (Hr1 : CalendarEvent.id r1 = "evt_a1" /\
                CalendarEvent.createdAt r1 = "2025-01-01T00:00:00.000Z").
  { revert E1. vm_compute. intros E1. injection E1 as <- <-. split; reflexivity. }
  destruct Hr1 as [Hid1 Hc1].
  split; [congruence|]. split; [congruence|]. split; [exact Ht|].
  split; [exact Hu|].
  simpl. change "u1" with (EventInput.uid e2) at 1.
  rewrite Hrows; [reflexivity|]. split; constructor.
Defined.

(** ** Credential refresh *)

Ltac crunch :=
  repeat first
    [ reflexivity
    | step_tick; simpl
    | match goal with
      | |- context [match Storage.get_doc ?a ?b ?c with _ => _ end] =>
          destruct (Storage.get_doc a b c); simpl
      end ].

Section CredentialFacts.
Context `{Host}.

Lemma isTokenExpired_run expiresAt w :
  OAuth.isTokenExpired expiresAt 5 w = (Ok (token_expired (clock w) expiresAt), w)
  /\ OAuth.isOutlookTokenExpired expiresAt 5 w
     = (Ok (token_expired (clock w) expiresAt), w).
Proof. split; reflexivity. Qed.


(** Google, token within the buffer, client id or secret missing: the
    error, and no request. *)
Lemma ensure_google_unconfigured account config w a r e :
  CalendarAccount.credentials account = OAuth2Credentials a r e ->
  CalendarAccount.provider account = google ->
  token_expired (clock w) e = true ->
  google_configured config = false ->
  ensureFreshCredentials account config w
  = (Throw "Google OAuth configuration missing for token refresh", w).
Proof.
  intros Hc Hp Hexp Hcfg. unfold ensureFreshCredentials. rewrite Hc, Hp.
  unfold bind. rewrite (proj1 (isTokenExpired_run e w)), Hexp. simpl.
  unfold google_configured in Hcfg. rewrite <- negb_andb, Hcfg. reflexivity.
Qed.

(** The refresh path: the request is sent; when the endpoint answers
    [ok], the account document exists and the storage calls succeed, the
    new credentials are stored under the account's secret key and
    returned. *)
Lemma ensure_refresh account config w a r e :
  CalendarAccount.credentials account = OAuth2Credentials a r e ->
  (CalendarAccount.provider account = google /\ google_configured config = true
   \/ CalendarAccount.provider account = outlook) ->
  token_expired (clock w) e = true ->
  let request := refresh_request (CalendarAccount.provider account) config r in
  let out := ensureFreshCredentials account config w in
  token_calls (trace (snd out)) = request :: token_calls (trace w) /\
  (forall response doc,
     fetchToken (fst request) r = Ok response ->
     HttpResponse.ok response = true ->
     Storage.get_doc AccountDocument.id (CalendarAccount.id account)
       (accountsColl w) = Some doc ->
     faults w = [] ->
     let fresh := refreshed_credentials (clock w) r (HttpResponse.json response) in
     fst out = Ok fresh /\
     secrets (snd out)
       !! AccountsRepository.getCredentialsKey (CalendarAccount.id account)
     = Some fresh).
Proof.
  intros Hc Hp Hexp request out. subst request out.
  unfold ensureFreshCredentials. rewrite Hc.
  destruct Hp as [[Hp Hcfg]| Hp]; rewrite Hp; unfold bind;
    [rewrite (proj1 (isTokenExpired_run e w))
    |rewrite (proj2 (isTokenExpired_run e w))];
    rewrite Hexp; simpl.
  - unfold google_configured in Hcfg. rewrite <- negb_andb, Hcfg. simpl.
    unfold OAuth.refreshGoogleCalendarToken, OAuth.refreshAccessToken,
      AccountsRepository.updateCredentials, AccountsRepository.saveCredentials,
      Storage.get, Storage.put, record, await, bind, ret, throw, Date_now.
    simpl.
    destruct (fetchToken _ r) as [response|msg] eqn:Hfetch; simpl.
    + destruct (HttpResponse.ok response) eqn:Hok; simpl.
      * split.
        { crunch. }
        intros response' doc E _ Hdoc Hf. injection E as <-.
        unfold tick; simpl. rewrite Hf; simpl. rewrite Hdoc; simpl.
        rewrite Hf; simpl. rewrite Hf. simpl. split; [reflexivity|].
        apply lookup_insert_eq.
      * split; [reflexivity|]. intros response' doc E Hok'.
        injection E as <-. congruence.
    + split; [reflexivity|]. intros response' doc E. discriminate.
  - unfold OAuth.refreshOutlookCalendarToken, OAuth.refreshAccessToken,
      AccountsRepository.updateCredentials, AccountsRepository.saveCredentials,
      Storage.get, Storage.put, record, await, bind, ret, throw, Date_now.
    simpl.
    destruct (fetchToken _ r) as [response|msg] eqn:Hfetch; simpl.
    + destruct (HttpResponse.ok response) eqn:Hok; simpl.
      * split.
        { crunch. }
        intros response' doc E _ Hdoc Hf. injection E as <-.
        unfold tick; simpl. rewrite Hf; simpl. rewrite Hdoc; simpl.
        rewrite Hf; simpl. rewrite Hf. simpl. split; [reflexivity|].
        apply lookup_insert_eq.
      * split; [reflexivity|]. intros response' doc E Hok'.
        injection E as <-. congruence.
    + split; [reflexivity|]. intros response' doc E. discriminate.
Qed.

End CredentialFacts.

(** ** C4: when the credentials are refreshed *)




(** ** C9: missing client configuration *)

Lemma or_default_falsy (a : option string) (d : string) :
  JS.truthy a = false -> JS.or_default a d = d.
Proof.
  destruct a as [s|]; simpl; [|reflexivity].
  destruct (String.eqb s ""); simpl; [reflexivity | discriminate].
Qed.

(** C9.  With an OAuth2 token within the 5-minute buffer: for a Google
    account, [ensureFreshCredentials] throws when the client id or the
    client secret is not configured, without any effect; for an Outlook
    account with no client id configured it sends the refresh request with
    the built-in default client id, and returns the refreshed credentials
    when the endpoint grants them and they can be stored. *)
Theorem refresh_client_configuration `{Host}
    (account : CalendarAccount.t) (config : CredentialRefreshConfig.t)
    (w : World) (a r e : string) :
  CalendarAccount.credentials account = OAuth2Credentials a r e ->
  token_expired (clock w) e = true ->
  (CalendarAccount.provider account = google ->
   google_configured config = false ->
   ensureFreshCredentials account config w
   = (Throw "Google OAuth configuration missing for token refresh", w)) /\
  (CalendarAccount.provider account = outlook ->
   JS.truthy (CredentialRefreshConfig.outlookClientId config) = false ->
   let request :=
     OAuth.createOutlookConfig
       (OAuth.OutlookCalendarOAuthConfig.mk
          "22f6cd67-c896-49b6-b68e-89d90035e0a7"
          (CredentialRefreshConfig.outlookTenantId config)) in
   let out := ensureFreshCredentials account config w in
   token_calls (trace (snd out)) = (request, r) :: token_calls (trace w) /\
   forall response doc,
     fetchToken request r = Ok response ->
     HttpResponse.ok response = true ->
     Storage.get_doc AccountDocument.id (CalendarAccount.id account)
       (accountsColl w) = Some doc ->
     faults w = [] ->
     fst out = Ok (refreshed_credentials (clock w) r (HttpResponse.json response))).
Proof.
  intros Hc Hexp. split.
  - intros Hp Hcfg. eapply ensure_google_unconfigured; eassumption.
  - intros Hp Hid request out.
    pose proof (ensure_refresh account config w a r e Hc (or_intror Hp) Hexp)
      as [Hcalls Hstore].
    rewrite Hp in Hcalls, Hstore. unfold refresh_request in Hcalls, Hstore.
    rewrite (or_default_falsy _ _ Hid) in Hcalls, Hstore.
    split; [exact Hcalls|].
    intros response doc Hfetch Hok Hdoc Hf.
    apply (Hstore response doc Hfetch Hok Hdoc Hf).
Qed.

Lemma refresh_client_configuration_witness :
  let now := 1735725600000 in
  let creds :=
    OAuth2Credentials "old-access" "refresh-1" "2025-01-01T10:02:00.000Z" in
  let config := Sample.config (Some "client-id") None None in
  let g := Sample.account "g" google None creds in
  let o := Sample.account "o" outlook None creds in
  let w := Sample.world_with now
             [Sample.account_doc "g" google None auth_oauth2;
              Sample.account_doc "o" outlook None auth_oauth2] [] [] in
  ensureFreshCredentials (H := Sample.host_granting) g config w
  = (Throw "Google OAuth configuration missing for token refresh", w) /\
  fst (ensureFreshCredentials (H := Sample.host_granting) o config w)
  = Ok (OAuth2Credentials "new-access" "refresh-1" "2025-01-01T11:00:00.000Z").
Proof.
  intros now creds config g o w. split.
  - apply (proj1 (refresh_client_configuration (H := Sample.host_granting)
                    g config w "old-access" "refresh-1"
                    "2025-01-01T10:02:00.000Z" eq_refl eq_refl));
      reflexivity.
  - apply (proj2 (refresh_client_configuration (H := Sample.host_granting)
                    o config w "old-access" "refresh-1"
                    "2025-01-01T10:02:00.000Z" eq_refl eq_refl)
             eq_refl eq_refl)
      with (response := Sample.token_ok)
           (doc := Sample.account_doc "o" outlook None auth_oauth2);
      reflexivity.
Defined.

(** ** C1: sync failures are contained *)

Section SyncFacts.
Context `{Host}.



Lemma syncAccountEvents_total account deps w :
  exists w', syncAccountEvents account deps w = (Ok tt, w').
Proof.
  unfold syncAccountEvents, try_catch, bind, log, record, ret.
  destruct (syncAccountEvents_try account deps w) as [[[]|msg] w1];
    [eauto|]. simpl.
  destruct (AccountsRepository.updateSyncStatus _ _ _) as [[[]|msg'] w2]; eauto.
Qed.



(** A failure of the credential refresh is a failure of the [try] block. *)
Lemma syncAccountEvents_try_refresh_fails account deps w msg w1 :
  ensureFreshCredentials account (credentialConfig deps) w = (Throw msg, w1) ->
  syncAccountEvents_try account deps w = (Throw msg, w1).
Proof.
  intros Hr. unfold syncAccountEvents_try, ProviderRegistry.getRequired, bind, ret.
  now rewrite Hr.
Qed.

Lemma sync_enabled_run accounts deps w :
  sync_enabled accounts deps w = (Ok tt, sync_each deps accounts w).
Proof.
  unfold sync_enabled, sync_each. revert w.
  induction accounts as [|account rest IH]; intros w; simpl; [reflexivity|].
  unfold bind. destruct (CalendarAccount.enabled account); simpl.
  - destruct (syncAccountEvents_total account deps w) as (w' & ->). simpl.
    apply IH.
  - apply IH.
Qed.


(** With the account list loaded, the pass syncs every enabled account of
    it, whatever happened to the ones before, then emits the change
    notification. *)
Lemma syncAll_run userId deps w accounts w1 :
  JS.truthy userId = true ->
  AccountsRepository.list None None w = (Ok accounts, w1) ->
  syncAllAccountsWithContext userId deps w
  = (Ok tt,
     let w2 := sync_each deps accounts w1 in
     match emit deps w2 with
     | (Ok _, w3) => w3
     | (Throw msg, w3) =>
         set_trace (CallLog "warn" "Failed to sync all accounts" msg :: trace w3) w3
     end).
Proof.
  intros Hu Hlist. unfold syncAllAccountsWithContext. rewrite Hu. simpl.
  unfold try_catch, bind, log, record. rewrite Hlist, sync_enabled_run.
  destruct (emit deps (sync_each deps accounts w1)) as [[[]|msg] w2];
    reflexivity.
Qed.

End SyncFacts.



(** The scenario of the specification: account A's iCal feed answers
    HTTP 500 and account B's CalDAV server returns one event.  After the
    pass A's [lastError] is the fetch error, B's is null, B's event is in
    the cache, both providers were asked, and the pass returned normally. *)
Example sync_scenario :
  let deps := Sample.deps (Sample.config None None None) in
  let out := syncAllAccountsWithContext (H := Sample.host_scenario)
               (Some "user-1") deps Sample.scenario_world in
  fst out = Ok tt /\
  option_map AccountDocument.lastError
    (Storage.get_doc AccountDocument.id "A" (accountsColl (snd out)))
  = Some (Some "Failed to fetch calendar: 500 Internal Server Error") /\
  option_map AccountDocument.lastError
    (Storage.get_doc AccountDocument.id "B" (accountsColl (snd out)))
  = Some None /\
  map EventDocument.uid (eventsColl (snd out)) = ["b-1"] /\
  sync_calls (trace (snd out)) = ["B"; "A"].
Proof. vm_compute. repeat split; reflexivity. Qed.

(** Failures at other stages of the pass of account B, injected through
    the fault schedule: a failing cache write and a failing cursor write are
    recorded as the account's [lastError]; when the storage also fails
    while the error is being recorded, the failure is swallowed and
    [lastError] stays as it was.  The pass returns normally each time. *)
Example sync_stage_failures :
  let deps := Sample.deps (Sample.config None None None) in
  let B := Sample.account "B" caldav (Some "https://dav.example.org")
             (PasswordCredentials "bob" "secret") in
  let run faults :=
    syncAccountEvents (H := Sample.host_scenario) B deps
      (set_faults faults Sample.scenario_world) in
  let lastError out :=
    option_map AccountDocument.lastError
      (Storage.get_doc AccountDocument.id "B" (accountsColl (snd out))) in
  (fst (run [None; None; Some "disk full"]) = Ok tt /\
   lastError (run [None; None; Some "disk full"]) = Some (Some "disk full") /\
   eventsColl (snd (run [None; None; Some "disk full"])) = []) /\
  (fst (run [None; None; None; None; Some "quota exceeded"]) = Ok tt /\
   lastError (run [None; None; None; None; Some "quota exceeded"])
   = Some (Some "quota exceeded") /\
   map EventDocument.uid
     (eventsColl (snd (run [None; None; None; None; Some "quota exceeded"])))
   = ["b-1"]) /\
  (fst (run [Some "storage down"; Some "storage down"]) = Ok tt /\
   lastError (run [Some "storage down"; Some "storage down"]) = Some None).
Proof. vm_compute. repeat split; reflexivity. Qed.

(** ** The Google provider: cancelled items become tombstones *)

Section GoogleFacts.
Context `{Host}.

Import GoogleCalendarProvider.




End GoogleFacts.

Section GoogleSyncFacts.
Context `{Host}.

Import GoogleCalendarProvider.




End GoogleSyncFacts.

(** ** Reconciling a sync result into the cache *)



Section ReconcileFacts.
Context `{Host}.







End ReconcileFacts.

(** ** C3: Google tombstones are deleted from the cache *)

Section GooglePass.
Context `{Host}.

Lemma listCalendars_any_world credentials w r w1 w2 :
  GoogleCalendarProvider.listCalendars credentials w = (r, w1) ->
  GoogleCalendarProvider.listCalendars credentials w2 = (r, w2).
Proof.
  unfold GoogleCalendarProvider.listCalendars,
    GoogleCalendarProvider.getAccessToken, bind, await, ret, throw.
  destruct credentials as [| |a r' e]; try (intros E; now injection E as <- _).
  destruct (GoogleCalendarProvider.googleFetch _);
    intros E; now injection E as <- _.
Qed.



End GooglePass.



(** The same pass, computed: the row of uid [X] is gone, the live item
    [Y] is cached, and the new sync token is stored. *)
Example google_pass_sample :
  let account := Sample.account "g" google None Sample.google_credentials in
  let deps := Sample.deps (Sample.config None None None) in
  let out := syncAccountEvents (H := Sample.host_google) account deps
               Sample.google_world in
  fst out = Ok tt /\
  map EventDocument.uid (eventsColl (snd out)) = ["Y"] /\
  map SyncStateDocument.syncToken (syncStateColl (snd out)) = [Some "tok-2"] /\
  map AccountDocument.lastError (accountsColl (snd out)) = [None].
Proof. vm_compute. repeat split; reflexivity. Qed.

(** ** C8: recurrence expansion in the iCal parser *)

Section ParserFacts.
Context `{Host}.

Lemma expand_length emit iterator from to remaining k :
  (length (Parser.expand emit iterator from to remaining k) <= remaining)%nat.
Proof.
  revert k. induction remaining as [|n IH]; intros k; simpl; [lia|].
  destruct (iterator k) as [occ|]; simpl; [|lia].
  destruct (Occurrence.startDate occ >? to); simpl; [lia|].
  rewrite List.length_app. specialize (IH (S k)).
  destruct (Occurrence.endDate occ >=? from); simpl; lia.
Qed.

(** Every event the expansion emits is built from an occurrence of the
    iterator that overlaps the range. *)
Lemma expand_emits emit iterator from to remaining k :
  Forall (fun e => exists j occ,
            iterator j = Some occ /\
            Occurrence.startDate occ <= to /\
            Occurrence.endDate occ >= from /\
            e = emit (Occurrence.startDate occ) (Occurrence.endDate occ))
    (Parser.expand emit iterator from to remaining k).
Proof.
  revert k. induction remaining as [|n IH]; intros k; simpl; [constructor|].
  destruct (iterator k) as [occ|] eqn:Hk; simpl; [|constructor].
  destruct (Occurrence.startDate occ >? to) eqn:Hs; simpl; [constructor|].
  apply List.Forall_app. split; [|apply IH].
  destruct (Occurrence.endDate occ >=? from) eqn:He; constructor; [|constructor].
  exists k, occ. rewrite Z.gtb_ltb, Z.ltb_ge in Hs. rewrite Z.geb_le in He.
  repeat split; auto. lia.
Qed.

(** Both versions emit at most 365 occurrences of a recurring VEVENT. *)
Lemma expansion_capped accountId calendarId from to userEmail vevent :
  VEvent.isRecurring vevent = true ->
  (length (Parser.vevent_events_v1 accountId calendarId from to vevent) <= 365)%nat
  /\
  (length (Parser.vevent_events accountId calendarId from to userEmail vevent)
   <= 365)%nat.
Proof.
  intros Hrec. unfold Parser.vevent_events_v1, Parser.vevent_events.
  rewrite Hrec. split; apply expand_length.
Qed.

(** The second version gives every emitted occurrence, which overlaps the
    range, the uid [`${uid}_${start.toISOString()}`]. *)
Lemma expansion_synthesizes_uid accountId calendarId from to userEmail vevent :
  VEvent.isRecurring vevent = true ->
  Forall (fun e => exists j occ,
            VEvent.iterator vevent j = Some occ /\
            Occurrence.startDate occ <= to /\
            Occurrence.endDate occ >= from /\
            EventInput.startAt e = Date_toISOString (Occurrence.startDate occ) /\
            EventInput.uid e
            = VEvent.uid vevent ++ "_"
              ++ Date_toISOString (Occurrence.startDate occ))
    (Parser.vevent_events accountId calendarId from to userEmail vevent).
Proof.
  intros Hrec. unfold Parser.vevent_events. rewrite Hrec.
  eapply List.Forall_impl; [|apply expand_emits]. simpl.
  intros e (j & occ & Hj & Hs & He & ->). exists j, occ. simpl. auto.
Qed.

(** The first version gives every emitted occurrence the VEVENT's own
    uid. *)
Lemma expansion_v1_keeps_uid accountId calendarId from to vevent :
  VEvent.isRecurring vevent = true ->
  Forall (fun e => EventInput.uid e = VEvent.uid vevent)
    (Parser.vevent_events_v1 accountId calendarId from to vevent).
Proof.
  intros Hrec. unfold Parser.vevent_events_v1. rewrite Hrec.
  eapply List.Forall_impl; [|apply expand_emits]. simpl.
  intros e (j & occ & _ & _ & _ & ->). reflexivity.
Qed.

End ParserFacts.


(** ** Computations that fire no reminder *)

Section Quiet.













(** A state change that leaves the trace alone. *)
Lemma quiet_update {A} (f : World -> A * World) :
  (forall w, trace (snd (f w)) = trace w) ->
  quiet (fun w => (Ok (fst (f w)), snd (f w))).
Proof. intros Hf w. simpl. now rewrite Hf. Qed.

End Quiet.



Section QuietPrograms.
Context `{Host}.































End QuietPrograms.

(** ** The worker loop *)

Section WorkerFacts.
Context `{Host}.



End WorkerFacts.

(** ** C5: when a reminder fires *)



(** The key does not determine the pair: two events with different uids
    and starts can share it. *)
Example reminder_key_collision :
  let e1 := EventsRepository.toCalendarEvent
              (Sample.event "e1" "acc" "a-b" "c" "c" None) in
  let e2 := EventsRepository.toCalendarEvent
              (Sample.event "e2" "acc" "a" "b-c" "b-c" None) in
  reminder_key e1 = reminder_key e2 /\
  (CalendarEvent.uid e1, CalendarEvent.startAt e1)
  <> (CalendarEvent.uid e2, CalendarEvent.startAt e2).
Proof. split; [reflexivity | discriminate]. Qed.


